(** * Chatalia: session store, generation lifecycle and edit policy

    A shallow embedding of the state logic of [src/App.tsx],
    [src/config.ts] and [src/components/ChatSettingsModal.tsx].

    Conventions of the embedding
    - a JavaScript string is the list of its UTF-16 code units;
    - a [Date] is its number of milliseconds since the epoch; every
      [new Date()] of the source is the argument [now] of the handler;
    - every [uuidv4()] of the source is an argument of the handler;
    - a JavaScript number is a rational: the handlers only copy and compare
      numbers, they never compute with them (non-finite numbers are outside
      the model);
    - a React state cell is a field of [AppState]; a handler is a function
      from [AppState] to [AppState].  Functional updaters
      ([setSessions(prev => ...)]) are applied to the current value of the
      cell at the place where the source enqueues them. *)

From Stdlib Require Import String Ascii QArith.
From stdpp Require Import base decidable option list numbers.

Set Default Proof Using "Type".
Local Open Scope Z_scope.
Local Open Scope list_scope.

(** ** Strings *)

Definition jsstring := list N.

(** The code units of an ASCII literal. *)
Definition js (s : string) : jsstring :=
  map N_of_ascii (list_ascii_of_string s).

(** Truthiness of a string: only the empty string is falsy. *)
Definition truthy (s : jsstring) : bool :=
  match s with [] => false | _ => true end.

Definition str_eqb (a b : jsstring) : bool := bool_decide (a = b).

(** ECMAScript [WhiteSpace] and [LineTerminator] code units: the class used
    by [String.prototype.trim] and by [\s] in a regular expression. *)
Definition isWhiteSpace (c : N) : bool :=
  (bool_decide (c ∈ [9; 10; 11; 12; 13; 32; 160; 5760; 8232; 8233; 8239;
                     8287; 12288; 65279]%N)
   || ((8192 <=? c)%N && (c <=? 8202)%N)).

Fixpoint trimStart (s : jsstring) : jsstring :=
  match s with
  | c :: r => if isWhiteSpace c then trimStart r else s
  | [] => []
  end.

Definition trimEnd (s : jsstring) : jsstring := rev (trimStart (rev s)).

(** [s.trim()] *)
Definition trim (s : jsstring) : jsstring := trimEnd (trimStart s).

(** [s.split(/\s+/)]: [acc] is the piece being read (reversed), [inWs] tells
    that the previous code unit belonged to a separator. *)
Fixpoint split_ws_from (acc : jsstring) (inWs : bool) (s : jsstring)
  : list jsstring :=
  match s with
  | [] => [rev acc]
  | c :: r =>
      if isWhiteSpace c
      then (if inWs then split_ws_from acc true r
            else rev acc :: split_ws_from [] true r)
      else split_ws_from (c :: acc) false r
  end.

Definition split_ws (s : jsstring) : list jsstring := split_ws_from [] false s.

(** [pieces.join(sep)] *)
Fixpoint join (sep : jsstring) (pieces : list jsstring) : jsstring :=
  match pieces with
  | [] => []
  | [p] => p
  | p :: rest => p ++ sep ++ join sep rest
  end.

(** [s.toLowerCase()] on the ASCII letters; the source applies it to the
    provider names of [MODEL_PROVIDERS] only. *)
Definition toLowerCase (s : jsstring) : jsstring :=
  map (fun c => if ((65 <=? c)%N && (c <=? 90)%N) then (c + 32)%N else c) s.

(** ** Data model ([src/types/chat.ts]) *)

Definition Date := Z.
Definition number := Q.

Inductive Role := user | assistant.

#[global] Instance Role_eq_dec : EqDecision Role.
Proof. solve_decision. Defined.

Module ChatMessage.
Record t := mk {
  id : jsstring;
  content : jsstring;
  role : Role;
  timestamp : Date;
  isError : option bool
}.
End ChatMessage.

Module ChatSettings.
Record t := mk {
  model : jsstring;
  temperature : number;
  systemPrompt : option jsstring;
  maxTokens : option number;
  topP : option number
}.
End ChatSettings.

Module ChatSession.
Record t := mk {
  id : jsstring;
  title : jsstring;
  messages : list ChatMessage.t;
  createdAt : Date;
  lastModified : Date;
  settings : option ChatSettings.t
}.
End ChatSession.

Inductive ApiProviderStatus := unknown | valid | invalid | testing.

Module ApiProviderConfig.
Record t := mk {
  id : jsstring;
  providerId : jsstring;
  name : jsstring;
  apiKey : jsstring;
  baseUrl : option jsstring;
  status : ApiProviderStatus;
  lastTested : option Date
}.
End ApiProviderConfig.

Inductive UiDensity := comfortable | compact.

Module AppSettings.
Record t := mk {
  defaultChatSettings : ChatSettings.t;
  apiProviders : list ApiProviderConfig.t;
  sendWithEnter : bool;
  uiDensity : UiDensity
}.
End AppSettings.

(** ** Configuration ([src/config.ts]) *)

Record ModelInfo := { mi_id : jsstring; mi_name : jsstring }.
Record Provider := { p_name : jsstring; p_models : list ModelInfo }.

Definition MODEL_PROVIDERS : list (jsstring * Provider) :=
  [ (js "openai",
     {| p_name := js "OpenAI";
        p_models :=
          [ {| mi_id := js "gpt-4o-mini"; mi_name := js "GPT-4o mini" |};
            {| mi_id := js "gpt-4o"; mi_name := js "GPT-4o" |};
            {| mi_id := js "gpt-4-turbo"; mi_name := js "GPT-4 Turbo" |};
            {| mi_id := js "gpt-3.5-turbo"; mi_name := js "GPT-3.5 Turbo" |} ] |});
    (js "anthropic",
     {| p_name := js "Anthropic";
        p_models :=
          [ {| mi_id := js "claude-3-opus-20240229"; mi_name := js "Claude 3 Opus" |};
            {| mi_id := js "claude-3-sonnet-20240229"; mi_name := js "Claude 3 Sonnet" |};
            {| mi_id := js "claude-3-haiku-20240307"; mi_name := js "Claude 3 Haiku" |} ] |});
    (js "groq",
     {| p_name := js "Groq";
        p_models :=
          [ {| mi_id := js "llama3-8b-8192"; mi_name := js "LLaMA3-8b" |};
            {| mi_id := js "llama3-70b-8192"; mi_name := js "LLaMA3-70b" |};
            {| mi_id := js "mixtral-8x7b-32768"; mi_name := js "Mixtral-8x7b" |};
            {| mi_id := js "gemma-7b-it"; mi_name := js "Gemma-7b" |} ] |}) ].

(** A model of [getAllModels()]: the model together with its [provider]. *)
Record FlatModel := { fm_id : jsstring; fm_name : jsstring; fm_provider : jsstring }.

Definition getAllModels : list FlatModel :=
  flat_map (fun kp : jsstring * Provider =>
              map (fun m => {| fm_id := mi_id m; fm_name := mi_name m;
                               fm_provider := toLowerCase (p_name (snd kp)) |})
                  (p_models (snd kp)))
           MODEL_PROVIDERS.

Definition findModelById (id : jsstring) : option FlatModel :=
  find (fun m => str_eqb (fm_id m) id) getAllModels.

Definition getProviderForKey (providerName : jsstring) : jsstring :=
  toLowerCase providerName.

Definition getProviderIdFromModel (modelId : jsstring) : option jsstring :=
  match findModelById modelId with
  | Some m => Some (getProviderForKey (fm_provider m))
  | None => None
  end.

Definition DEFAULT_MODEL_ID : jsstring := js "gpt-4o-mini".

Definition DEFAULT_CHAT_SETTINGS : ChatSettings.t :=
  {| ChatSettings.model := DEFAULT_MODEL_ID;
     ChatSettings.temperature := 7 # 10;
     ChatSettings.systemPrompt := Some [];
     ChatSettings.maxTokens := None;
     ChatSettings.topP := None |}.

Definition DEFAULT_APP_SETTINGS : AppSettings.t :=
  {| AppSettings.defaultChatSettings := DEFAULT_CHAT_SETTINGS;
     AppSettings.apiProviders := [];
     AppSettings.sendWithEnter := true;
     AppSettings.uiDensity := comfortable |}.

(** ** Application state ([App], [src/App.tsx]) *)

Inductive Toast :=
| toast_error (msg : jsstring)
| toast_success (msg : jsstring)
| toast_plain (msg : jsstring).

(** The only closure the source ever stores as [onConfirm]: the one built
    by [handleDeleteChat].  It captures [id] and [chatTitle], and the values
    [activeSessionId] and [isLoading] had when the dialog was opened. *)
Record DeleteChatClosure := {
  dc_id : jsstring;
  dc_chatTitle : jsstring;
  dc_activeSessionId : option jsstring;
  dc_isLoading : bool
}.

Inductive ConfirmVariant := danger | primary.

Record ConfirmModalProps := {
  cm_message : jsstring;
  cm_onConfirm : DeleteChatClosure;
  cm_title : option jsstring;
  cm_confirmText : option jsstring;
  cm_confirmVariant : ConfirmVariant
}.

(** [signals] is the heap of [AbortController]s: entry [k] is
    [signal.aborted] of the [k]-th controller created.  The ref
    [abortControllerRef.current] and the local [signal] of a suspended
    [performAICall] both point into it, so an abort through the ref is seen
    by the suspended call.  [toasts] and [backendCalls] record the
    notifications emitted and the number of calls of the generation backend. *)
Record AppState := {
  input : jsstring;
  sessions : list ChatSession.t;
  activeSessionId : option jsstring;
  isLoading : bool;
  isChatSettingsModalOpen : bool;
  editingMessageId : option jsstring;
  appSettings : AppSettings.t;
  isConfirmModalOpen : bool;
  confirmModalProps : option ConfirmModalProps;
  abortControllerRef : option nat;
  signals : list bool;
  toasts : list Toast;
  backendCalls : nat
}.

Definition setSessions (f : list ChatSession.t -> list ChatSession.t)
  (st : AppState) : AppState :=
  {| input := input st; sessions := f (sessions st);
     activeSessionId := activeSessionId st; isLoading := isLoading st;
     isChatSettingsModalOpen := isChatSettingsModalOpen st;
     editingMessageId := editingMessageId st; appSettings := appSettings st;
     isConfirmModalOpen := isConfirmModalOpen st;
     confirmModalProps := confirmModalProps st;
     abortControllerRef := abortControllerRef st; signals := signals st;
     toasts := toasts st; backendCalls := backendCalls st |}.

Definition setActiveSessionId (v : option jsstring) (st : AppState) : AppState :=
  {| input := input st; sessions := sessions st;
     activeSessionId := v; isLoading := isLoading st;
     isChatSettingsModalOpen := isChatSettingsModalOpen st;
     editingMessageId := editingMessageId st; appSettings := appSettings st;
     isConfirmModalOpen := isConfirmModalOpen st;
     confirmModalProps := confirmModalProps st;
     abortControllerRef := abortControllerRef st; signals := signals st;
     toasts := toasts st; backendCalls := backendCalls st |}.

Definition setIsLoading (v : bool) (st : AppState) : AppState :=
  {| input := input st; sessions := sessions st;
     activeSessionId := activeSessionId st; isLoading := v;
     isChatSettingsModalOpen := isChatSettingsModalOpen st;
     editingMessageId := editingMessageId st; appSettings := appSettings st;
     isConfirmModalOpen := isConfirmModalOpen st;
     confirmModalProps := confirmModalProps st;
     abortControllerRef := abortControllerRef st; signals := signals st;
     toasts := toasts st; backendCalls := backendCalls st |}.

Definition setInput (v : jsstring) (st : AppState) : AppState :=
  {| input := v; sessions := sessions st;
     activeSessionId := activeSessionId st; isLoading := isLoading st;
     isChatSettingsModalOpen := isChatSettingsModalOpen st;
     editingMessageId := editingMessageId st; appSettings := appSettings st;
     isConfirmModalOpen := isConfirmModalOpen st;
     confirmModalProps := confirmModalProps st;
     abortControllerRef := abortControllerRef st; signals := signals st;
     toasts := toasts st; backendCalls := backendCalls st |}.

Definition setEditingMessageId (v : option jsstring) (st : AppState) : AppState :=
  {| input := input st; sessions := sessions st;
     activeSessionId := activeSessionId st; isLoading := isLoading st;
     isChatSettingsModalOpen := isChatSettingsModalOpen st;
     editingMessageId := v; appSettings := appSettings st;
     isConfirmModalOpen := isConfirmModalOpen st;
     confirmModalProps := confirmModalProps st;
     abortControllerRef := abortControllerRef st; signals := signals st;
     toasts := toasts st; backendCalls := backendCalls st |}.

Definition setIsChatSettingsModalOpen (v : bool) (st : AppState) : AppState :=
  {| input := input st; sessions := sessions st;
     activeSessionId := activeSessionId st; isLoading := isLoading st;
     isChatSettingsModalOpen := v;
     editingMessageId := editingMessageId st; appSettings := appSettings st;
     isConfirmModalOpen := isConfirmModalOpen st;
     confirmModalProps := confirmModalProps st;
     abortControllerRef := abortControllerRef st; signals := signals st;
     toasts := toasts st; backendCalls := backendCalls st |}.

Definition setConfirmModal (open : bool) (props : option ConfirmModalProps)
  (st : AppState) : AppState :=
  {| input := input st; sessions := sessions st;
     activeSessionId := activeSessionId st; isLoading := isLoading st;
     isChatSettingsModalOpen := isChatSettingsModalOpen st;
     editingMessageId := editingMessageId st; appSettings := appSettings st;
     isConfirmModalOpen := open;
     confirmModalProps := props;
     abortControllerRef := abortControllerRef st; signals := signals st;
     toasts := toasts st; backendCalls := backendCalls st |}.

(** Assignment to [abortControllerRef.current] together with the heap of
    controllers. *)
Definition setAbort (ref : option nat) (heap : list bool) (st : AppState)
  : AppState :=
  {| input := input st; sessions := sessions st;
     activeSessionId := activeSessionId st; isLoading := isLoading st;
     isChatSettingsModalOpen := isChatSettingsModalOpen st;
     editingMessageId := editingMessageId st; appSettings := appSettings st;
     isConfirmModalOpen := isConfirmModalOpen st;
     confirmModalProps := confirmModalProps st;
     abortControllerRef := ref; signals := heap;
     toasts := toasts st; backendCalls := backendCalls st |}.

Definition toast (t : Toast) (st : AppState) : AppState :=
  {| input := input st; sessions := sessions st;
     activeSessionId := activeSessionId st; isLoading := isLoading st;
     isChatSettingsModalOpen := isChatSettingsModalOpen st;
     editingMessageId := editingMessageId st; appSettings := appSettings st;
     isConfirmModalOpen := isConfirmModalOpen st;
     confirmModalProps := confirmModalProps st;
     abortControllerRef := abortControllerRef st; signals := signals st;
     toasts := toasts st ++ [t]; backendCalls := backendCalls st |}.

Definition countBackendCall (st : AppState) : AppState :=
  {| input := input st; sessions := sessions st;
     activeSessionId := activeSessionId st; isLoading := isLoading st;
     isChatSettingsModalOpen := isChatSettingsModalOpen st;
     editingMessageId := editingMessageId st; appSettings := appSettings st;
     isConfirmModalOpen := isConfirmModalOpen st;
     confirmModalProps := confirmModalProps st;
     abortControllerRef := abortControllerRef st; signals := signals st;
     toasts := toasts st; backendCalls := S (backendCalls st) |}.

(** [controller.abort()]: sets [signal.aborted] of controller [k]. *)
Definition abort (k : nat) (st : AppState) : AppState :=
  setAbort (abortControllerRef st) (<[k := true]> (signals st)) st.

(** [signal.aborted] of controller [k]. *)
Definition aborted (k : nat) (st : AppState) : bool :=
  default false (signals st !! k).

(** *** Derived state *)

Definition findSession (id : option jsstring) (l : list ChatSession.t)
  : option ChatSession.t :=
  match id with
  | Some i => find (fun s => str_eqb (ChatSession.id s) i) l
  | None => None
  end.

Definition activeSession (st : AppState) : option ChatSession.t :=
  findSession (activeSessionId st) (sessions st).

Definition effectiveChatSettings (st : AppState) : ChatSettings.t :=
  match activeSession st with
  | Some s => default (AppSettings.defaultChatSettings (appSettings st))
                      (ChatSession.settings s)
  | None => AppSettings.defaultChatSettings (appSettings st)
  end.

Definition isUsingDefaultSettings (st : AppState) : bool :=
  match activeSession st with
  | Some s => match ChatSession.settings s with Some _ => false | None => true end
  | None => true
  end.

(** *** Session updates *)

Definition withMessages (s : ChatSession.t) (ms : list ChatMessage.t)
  (now : Date) : ChatSession.t :=
  {| ChatSession.id := ChatSession.id s;
     ChatSession.title := ChatSession.title s;
     ChatSession.messages := ms;
     ChatSession.createdAt := ChatSession.createdAt s;
     ChatSession.lastModified := now;
     ChatSession.settings := ChatSession.settings s |}.

Definition withTitle (s : ChatSession.t) (t : jsstring) (now : Date)
  : ChatSession.t :=
  {| ChatSession.id := ChatSession.id s;
     ChatSession.title := t;
     ChatSession.messages := ChatSession.messages s;
     ChatSession.createdAt := ChatSession.createdAt s;
     ChatSession.lastModified := now;
     ChatSession.settings := ChatSession.settings s |}.

Definition withSettings (s : ChatSession.t) (cs : option ChatSettings.t)
  (now : Date) : ChatSession.t :=
  {| ChatSession.id := ChatSession.id s;
     ChatSession.title := ChatSession.title s;
     ChatSession.messages := ChatSession.messages s;
     ChatSession.createdAt := ChatSession.createdAt s;
     ChatSession.lastModified := now;
     ChatSession.settings := cs |}.

(** The updater of [addMessageToActiveSession]. *)
Definition appendTo (sessionId : jsstring) (message : ChatMessage.t)
  (now : Date) (prev : list ChatSession.t) : list ChatSession.t :=
  map (fun s =>
         if str_eqb (ChatSession.id s) sessionId
         then withMessages s (ChatSession.messages s ++ [message]) now
         else s) prev.

Definition addMessageToActiveSession (message : ChatMessage.t)
  (sessionId : jsstring) (now : Date) (st : AppState) : AppState :=
  if negb (truthy sessionId) then st
  else setSessions (appendTo sessionId message now) st.

(** The title computed inside [updateSessionTitleIfNeeded]. *)
Definition titleWords (firstMessageContent : jsstring) : jsstring :=
  join (js " ") (take 5 (split_ws firstMessageContent)).

Definition deriveTitle (firstMessageContent : jsstring) : jsstring :=
  let words := titleWords firstMessageContent in
  let newTitle :=
    if (35 <? length words)%nat then take 32 words ++ js "..." else words in
  if truthy newTitle then newTitle else js "Chat".

Definition needsTitle (sessionId : jsstring) (s : ChatSession.t) : bool :=
  str_eqb (ChatSession.id s) sessionId
  && (str_eqb (ChatSession.title s) (js "New Chat")
      || negb (truthy (ChatSession.title s))).

Definition updateSessionTitleIfNeeded (sessionId firstMessageContent : jsstring)
  (now : Date) (st : AppState) : AppState :=
  setSessions
    (map (fun s =>
            if needsTitle sessionId s
            then withTitle s (deriveTitle firstMessageContent) now
            else s)) st.

(** ** The generation backend ([simulateAIResponse]) *)

Record JsError := { e_name : jsstring; e_message : jsstring }.

(** [new DOMException("Aborted", "AbortError")] *)
Definition AbortError : JsError :=
  {| e_name := js "AbortError"; e_message := js "Aborted" |}.

(** [new Error(msg)] *)
Definition Error (msg : jsstring) : JsError :=
  {| e_name := js "Error"; e_message := msg |}.

(** What an [await] gives back to the suspended caller. *)
Inductive Completion :=
| Returned (text : jsstring)
| Threw (e : JsError).

Definition quote : jsstring := [34%N].
Definition newline : jsstring := [10%N].

Definition truthyOpt (o : option jsstring) : bool :=
  match o with Some s => truthy s | None => false end.

(** [simulateAIResponse(prompt, settings, apiKey, baseUrl, signal)].

    The promise of the delay is settled either by the timer or by the
    [abort] listener, which clears the timer and rejects;
    [abortedWhilePending] tells that the signal fired before the timer did.
    The check after the delay ([if (signal?.aborted) throw ...]) gives the
    same completion.  [variation] is the prefix drawn with [Math.random()]:
    empty, or the banner naming the model and the temperature. *)
Definition simulateAIResponse (prompt : jsstring) (settings : ChatSettings.t)
  (apiKey baseUrl : option jsstring) (variation : jsstring)
  (abortedWhilePending : bool) : Completion :=
  if negb (truthyOpt apiKey) then
    let providerName :=
      match findModelById (ChatSettings.model settings) with
      | Some m => if truthy (fm_provider m) then fm_provider m else js "provider"
      | None => js "provider"
      end in
    Threw (Error (js "API Key/Config for " ++ providerName ++ js " not set."))
  else if abortedWhilePending then Threw AbortError
  else
    let sysPromptInfo :=
      match ChatSettings.systemPrompt settings with
      | Some p =>
          if truthy p
          then newline ++ js "SysPrompt: " ++ quote ++ take 50 p ++ js "..." ++ quote
          else []
      | None => []
      end in
    let baseUrlInfo :=
      match baseUrl with
      | Some u => if truthy u then newline ++ js "BaseURL: " ++ u else []
      | None => []
      end in
    Returned (variation ++ js "Simulated response: " ++ quote ++ prompt ++ quote
              ++ js "." ++ sysPromptInfo ++ baseUrlInfo ++ newline ++ newline
              ++ js "```python" ++ newline ++ js "# Example" ++ newline
              ++ js "print(" ++ quote ++ js "Simulated" ++ quote ++ js ")"
              ++ newline ++ js "```").

(** ** [performAICall] *)

(** The locals of a [performAICall] suspended at its [await]. *)
Record Generation := {
  g_prompt : jsstring;
  sessionForCall : ChatSession.t;
  settingsToUse : ChatSettings.t;
  g_apiKey : jsstring;
  g_baseUrl : option jsstring;
  signal : nat
}.

Definition findProvider (providerId : option jsstring)
  (l : list ApiProviderConfig.t) : option ApiProviderConfig.t :=
  match providerId with
  | Some p => find (fun c => str_eqb (ApiProviderConfig.providerId c) p) l
  | None => None
  end.

(** [sessionForCall.settings ?? appSettings.defaultChatSettings] *)
Definition effectiveSettings (session : ChatSession.t)
  (globalDefaults : ChatSettings.t) : ChatSettings.t :=
  default globalDefaults (ChatSession.settings session).

(** The provider configuration [performAICall] looks up for [settings]:
    the first one filed under the provider of the model. *)
Definition resolveCredential (settings : ChatSettings.t) (a : AppSettings.t)
  : option ApiProviderConfig.t :=
  findProvider (getProviderIdFromModel (ChatSettings.model settings))
               (AppSettings.apiProviders a).

(** [performAICall] from its entry to the [await]: either it returns at the
    guard on [apiKey] (no [Generation]), or it is suspended on the backend
    call. *)
Definition performAICall (prompt : jsstring) (session : ChatSession.t)
  (st : AppState) : AppState * option Generation :=
  let settings :=
    effectiveSettings session (AppSettings.defaultChatSettings (appSettings st)) in
  let providerId := getProviderIdFromModel (ChatSettings.model settings) in
  let apiProviderConfig := resolveCredential settings (appSettings st) in
  let apiKey := ApiProviderConfig.apiKey <$> apiProviderConfig in
  let baseUrl := apiProviderConfig ≫= ApiProviderConfig.baseUrl in
  let missing :=
    toast (toast_error (js "API Config for '"
                        ++ (if truthyOpt providerId then default [] providerId
                            else js "unknown")
                        ++ js "' not found or key missing.")) st in
  match apiKey with
  | Some key =>
      if truthy key then
        let k := length (signals st) in
        let st1 := setAbort (Some k) (signals st ++ [false]) (setIsLoading true st) in
        (countBackendCall st1,
         Some {| g_prompt := prompt; sessionForCall := session;
                 settingsToUse := settings; g_apiKey := key;
                 g_baseUrl := baseUrl; signal := k |})
      else (missing, None)
  | None => (missing, None)
  end.

Definition assistantMessage (id content : jsstring) (now : Date)
  : ChatMessage.t :=
  {| ChatMessage.id := id; ChatMessage.content := content;
     ChatMessage.role := assistant; ChatMessage.timestamp := now;
     ChatMessage.isError := None |}.

Definition errorMessage (id content : jsstring) (now : Date) : ChatMessage.t :=
  {| ChatMessage.id := id; ChatMessage.content := content;
     ChatMessage.role := assistant; ChatMessage.timestamp := now;
     ChatMessage.isError := Some true |}.

Definition stoppedMessage (id : jsstring) (now : Date) : ChatMessage.t :=
  errorMessage id (js "Generation stopped.") now.

(** The [try]/[catch] of [performAICall] once the awaited call completed
    with [r]. *)
Definition performAICall_body (g : Generation) (r : Completion)
  (newId : jsstring) (now : Date) (st : AppState) : AppState :=
  let sid := ChatSession.id (sessionForCall g) in
  match r with
  | Returned aiResponseContent =>
      if aborted (signal g) st then st
      else addMessageToActiveSession
             (assistantMessage newId aiResponseContent now) sid now st
  | Threw error =>
      if str_eqb (e_name error) (js "AbortError")
      then addMessageToActiveSession (stoppedMessage newId now) sid now st
      else toast (toast_error (js "AI Error: " ++ e_message error))
             (addMessageToActiveSession
                (errorMessage newId (js "Error: " ++ e_message error) now)
                sid now st)
  end.

(** The [finally] of [performAICall]. *)
Definition performAICall_finally (g : Generation) (st : AppState) : AppState :=
  let st1 := if aborted (signal g) st then st else setIsLoading false st in
  setAbort None (signals st1) st1.

(** [performAICall] from the [await] to its end. *)
Definition performAICall_resume (g : Generation) (r : Completion)
  (newId : jsstring) (now : Date) (st : AppState) : AppState :=
  performAICall_finally g (performAICall_body g r newId now st).

(** The completion of the backend call of [g] when it is settled in
    state [st]. *)
Definition awaitBackend (g : Generation) (variation : jsstring)
  (st : AppState) : Completion :=
  simulateAIResponse (g_prompt g) (settingsToUse g) (Some (g_apiKey g))
    (g_baseUrl g) variation (aborted (signal g) st).

(** The rest of a generation against the backend of the source. *)
Definition performAICall_settle (g : Generation) (variation newId : jsstring)
  (now : Date) (st : AppState) : AppState :=
  performAICall_resume g (awaitBackend g variation st) newId now st.

(** ** Handlers of [App] *)

Definition handleStopGenerating (st : AppState) : AppState :=
  match isLoading st, abortControllerRef st with
  | true, Some k => abort k st
  | _, _ => st
  end.

Definition handleSelectChat (id : jsstring) (st : AppState) : AppState :=
  let st1 :=
    match isLoading st, abortControllerRef st with
    | true, Some k => setIsLoading false (abort k st)
    | _, _ => st
    end in
  setEditingMessageId None (setInput [] (setActiveSessionId (Some id) st1)).

Definition titleOf (id : jsstring) (l : list ChatSession.t) : jsstring :=
  match find (fun s => str_eqb (ChatSession.id s) id) l with
  | Some s => if truthy (ChatSession.title s) then ChatSession.title s
              else js "this chat"
  | None => js "this chat"
  end.

(** [handleDeleteChat]: opens the confirmation dialog; nothing is deleted
    before [handleConfirmClick].  The callback is memoised on
    [activeSessionId] and [isLoading]: [sessionsSeen], which only serves to
    word the dialog, is the [sessions] of the render that created it. *)
Definition handleDeleteChat (sessionsSeen : list ChatSession.t) (id : jsstring)
  (st : AppState) : AppState :=
  let chatTitle := titleOf id sessionsSeen in
  setConfirmModal true
    (Some {| cm_message :=
               js "Are you sure you want to permanently delete " ++ quote
               ++ chatTitle ++ quote ++ js "? This action cannot be undone.";
             cm_onConfirm :=
               {| dc_id := id; dc_chatTitle := chatTitle;
                  dc_activeSessionId := activeSessionId st;
                  dc_isLoading := isLoading st |};
             cm_title := Some (js "Delete Chat?");
             cm_confirmText := Some (js "Delete");
             cm_confirmVariant := danger |}) st.

(** The body of the closure passed to [openConfirmation]. *)
Definition runDeleteChat (c : DeleteChatClosure) (st : AppState) : AppState :=
  let st1 :=
    setSessions
      (List.filter (fun s => negb (str_eqb (ChatSession.id s) (dc_id c)))) st in
  let st2 :=
    if bool_decide (dc_activeSessionId c = Some (dc_id c)) then
      let st' := setActiveSessionId None st1 in
      match dc_isLoading c, abortControllerRef st' with
      | true, Some k => setIsLoading false (abort k st')
      | _, _ => st'
      end
    else st1 in
  toast (toast_success (js "Chat " ++ quote ++ dc_chatTitle c ++ quote
                        ++ js " deleted.")) st2.

(** [handleConfirmClick] of [ConfirmModal]: [onConfirm(); onClose()]. *)
Definition handleConfirmClick (st : AppState) : AppState :=
  let st1 :=
    match confirmModalProps st with
    | Some p => runDeleteChat (cm_onConfirm p) st
    | None => st
    end in
  setConfirmModal false (confirmModalProps st1) st1.

(** [handleCancelClick] of [ConfirmModal]. *)
Definition handleCancelClick (st : AppState) : AppState :=
  setConfirmModal false (confirmModalProps st) st.

Definition truthyId (o : option jsstring) : option jsstring :=
  match o with
  | Some i => if truthy i then Some i else None
  | None => None
  end.

Definition handleDeleteMessage (messageId : jsstring) (now : Date)
  (st : AppState) : AppState :=
  match truthyId (activeSessionId st) with
  | None => st
  | Some a =>
      setSessions
        (map (fun s =>
                if str_eqb (ChatSession.id s) a
                then withMessages s
                       (List.filter
                          (fun m => negb (str_eqb (ChatMessage.id m) messageId))
                          (ChatSession.messages s)) now
                else s)) st
  end.

(** *** [handleSaveEdit] *)

(** The variables [handleSaveEdit] declares before [setSessions] and
    assigns inside the updater. *)
Record EditVars := {
  requiresRegeneration : bool;
  userPromptForRegen : jsstring;
  sessionAfterUpdate : option ChatSession.t
}.

Definition editVars0 : EditVars :=
  {| requiresRegeneration := false; userPromptForRegen := [];
     sessionAfterUpdate := None |}.

Definition withContent (m : ChatMessage.t) (c : jsstring) (now : Date)
  : ChatMessage.t :=
  {| ChatMessage.id := ChatMessage.id m; ChatMessage.content := c;
     ChatMessage.role := ChatMessage.role m; ChatMessage.timestamp := now;
     ChatMessage.isError := ChatMessage.isError m |}.

(** [s.messages.map(m => m.id === messageId ? {...m, content, timestamp} : m)] *)
Definition rewriteMessages (messageId trimmedContent : jsstring) (now : Date)
  (ms : list ChatMessage.t) : list ChatMessage.t :=
  map (fun m => if str_eqb (ChatMessage.id m) messageId
                then withContent m trimmedContent now else m) ms.

(** One call of the callback of [prev.map] in the updater; [v] holds the
    variables shared by all the calls. *)
Definition editSession (activeId messageId trimmedContent : jsstring)
  (now : Date) (v : EditVars) (s : ChatSession.t) : EditVars * ChatSession.t :=
  if str_eqb (ChatSession.id s) activeId then
    match list_find (fun m => ChatMessage.id m = messageId)
                    (ChatSession.messages s) with
    | None => (v, s)
    | Some (msgIdx, originalMsg) =>
        let v1 :=
          if negb (str_eqb (ChatMessage.content originalMsg) trimmedContent)
             && bool_decide (ChatMessage.role originalMsg = user)
          then {| requiresRegeneration :=
                    if (Z.of_nat msgIdx
                        <? Z.of_nat (length (ChatSession.messages s)) - 1)
                    then true else requiresRegeneration v;
                  userPromptForRegen := trimmedContent;
                  sessionAfterUpdate := sessionAfterUpdate v |}
          else v in
        let updatedMessages :=
          rewriteMessages messageId trimmedContent now (ChatSession.messages s) in
        let updatedMessages :=
          if requiresRegeneration v1 then take (msgIdx + 1) updatedMessages
          else updatedMessages in
        let updatedSession := withMessages s updatedMessages now in
        ({| requiresRegeneration := requiresRegeneration v1;
            userPromptForRegen := userPromptForRegen v1;
            sessionAfterUpdate := Some updatedSession |}, updatedSession)
    end
  else (v, s).

(** [prev.map(...)] of the updater, threading the shared variables. *)
Fixpoint editSessions (activeId messageId trimmedContent : jsstring)
  (now : Date) (v : EditVars) (prev : list ChatSession.t)
  : EditVars * list ChatSession.t :=
  match prev with
  | [] => (v, [])
  | s :: rest =>
      let '(v1, s1) := editSession activeId messageId trimmedContent now v s in
      let '(v2, rest2) :=
        editSessions activeId messageId trimmedContent now v1 rest in
      (v2, s1 :: rest2)
  end.

(** [handleSaveEdit] up to its call of [performAICall]: the new state and,
    when the call is made, its two arguments.

    The handler reads [requiresRegeneration], [userPromptForRegen] and
    [sessionAfterUpdate] right after [setSessions], but they are assigned
    only inside the updater it passes.  React calls an updater inside
    [setSessions] only when the component has no update pending; otherwise
    it queues the updater and calls it while rendering, after the handler
    has returned.  [eager] tells which of the two happens: when it is
    [false] the handler still reads the initial values of the three
    variables, and the updater, run for the next render, gives the same
    sessions. *)
Definition handleSaveEdit_policy (eager : bool) (messageId newContent : jsstring)
  (now : Date) (st : AppState) : AppState * option (jsstring * ChatSession.t) :=
  match truthyId (activeSessionId st) with
  | None => (st, None)
  | Some a =>
      let trimmedContent := trim newContent in
      if negb (truthy trimmedContent) then (st, None)
      else
        let '(assigned, newSessions) :=
          editSessions a messageId trimmedContent now editVars0 (sessions st) in
        let v := if eager then assigned else editVars0 in
        let st1 :=
          toast (toast_success (js "Message updated"))
            (setEditingMessageId None (setSessions (fun _ => newSessions) st)) in
        (st1,
         if requiresRegeneration v
         then (fun s => (userPromptForRegen v, s)) <$> sessionAfterUpdate v
         else None)
  end.

Definition handleSaveEdit (eager : bool) (messageId newContent : jsstring)
  (now : Date) (st : AppState) : AppState * option Generation :=
  match handleSaveEdit_policy eager messageId newContent now st with
  | (st1, Some (prompt, session)) => performAICall prompt session st1
  | (st1, None) => (st1, None)
  end.

(** *** Settings of a chat *)

Definition handleSaveChatSettings (chatId : jsstring)
  (newSettings : ChatSettings.t) (now : Date) (st : AppState) : AppState :=
  toast (toast_success (js "Chat settings saved"))
    (setSessions
       (map (fun s => if str_eqb (ChatSession.id s) chatId
                      then withSettings s (Some newSettings) now else s)) st).

Definition handleResetChatSettings (chatId : jsstring) (now : Date)
  (st : AppState) : AppState :=
  toast (toast_success (js "Chat settings reset to defaults"))
    (setSessions
       (map (fun s => if str_eqb (ChatSession.id s) chatId
                      then withSettings s None now else s)) st).

(** ** [ChatSettingsModal] *)

Definition opt_eqb {A} (eqb : A -> A -> bool) (a b : option A) : bool :=
  match a, b with
  | Some x, Some y => eqb x y
  | None, None => true
  | _, _ => false
  end.

(** [JSON.stringify(a) === JSON.stringify(b)] for two settings objects whose
    keys come in the order of the declaration: the texts agree when the
    fields do, a field that is absent or [undefined] being left out of the
    text. *)
Definition json_eqb (a b : ChatSettings.t) : bool :=
  str_eqb (ChatSettings.model a) (ChatSettings.model b)
  && Qeq_bool (ChatSettings.temperature a) (ChatSettings.temperature b)
  && opt_eqb str_eqb (ChatSettings.systemPrompt a) (ChatSettings.systemPrompt b)
  && opt_eqb Qeq_bool (ChatSettings.maxTokens a) (ChatSettings.maxTokens b)
  && opt_eqb Qeq_bool (ChatSettings.topP a) (ChatSettings.topP b).

(** The modal is rendered by [App] with [chatId = activeSessionId],
    [onSave = handleSaveChatSettings] and
    [onResetToDefaults = handleResetChatSettings]. *)
Definition handleReset (now : Date) (st : AppState) : AppState :=
  match truthyId (activeSessionId st) with
  | Some chatId =>
      toast (toast_success (js "Chat reset to use global defaults."))
        (handleResetChatSettings chatId now st)
  | None => st
  end.

Definition handleSaveChanges (tempSettings : ChatSettings.t) (now : Date)
  (st : AppState) : AppState :=
  let st1 :=
    match truthyId (activeSessionId st) with
    | Some chatId =>
        if negb (json_eqb tempSettings DEFAULT_CHAT_SETTINGS)
        then handleSaveChatSettings chatId tempSettings now st
        else if negb (isUsingDefaultSettings st) then handleReset now st
             else toast (toast_plain
                           (js "Settings match global defaults. No changes saved."))
                    st
    | None => st
    end in
  setIsChatSettingsModalOpen false st1.

(** *** Remaining handlers *)

Definition setAppSettings (v : AppSettings.t) (st : AppState) : AppState :=
  {| input := input st; sessions := sessions st;
     activeSessionId := activeSessionId st; isLoading := isLoading st;
     isChatSettingsModalOpen := isChatSettingsModalOpen st;
     editingMessageId := editingMessageId st; appSettings := v;
     isConfirmModalOpen := isConfirmModalOpen st;
     confirmModalProps := confirmModalProps st;
     abortControllerRef := abortControllerRef st; signals := signals st;
     toasts := toasts st; backendCalls := backendCalls st |}.

Definition handleAppSettingsChange (newSettings : AppSettings.t)
  (st : AppState) : AppState := setAppSettings newSettings st.

Definition newSession (id : jsstring) (now : Date) : ChatSession.t :=
  {| ChatSession.id := id; ChatSession.title := js "New Chat";
     ChatSession.messages := []; ChatSession.createdAt := now;
     ChatSession.lastModified := now; ChatSession.settings := None |}.

(** [handleNewChat] is memoised on [isLoading] alone: [activeSessionSeen]
    is the [activeSession] of the render that created the callback. *)
Definition handleNewChat (activeSessionSeen : option ChatSession.t)
  (newId : jsstring) (now : Date) (st : AppState) : AppState :=
  match activeSessionSeen with
  | Some {| ChatSession.messages := [] |} => st
  | _ =>
      let st1 :=
        match isLoading st, abortControllerRef st with
        | true, Some k => abort k st
        | _, _ => st
        end in
      setInput []
        (setEditingMessageId None
           (setActiveSessionId (Some newId)
              (setSessions (cons (newSession newId now)) st1)))
  end.

Definition userMessage (id content : jsstring) (now : Date) : ChatMessage.t :=
  {| ChatMessage.id := id; ChatMessage.content := content;
     ChatMessage.role := user; ChatMessage.timestamp := now;
     ChatMessage.isError := None |}.

(** The part of [handleSubmit] after the session was found or created. *)
Definition submitTo (trimmedInput newMessageId : jsstring) (now : Date)
  (sessionToUse : ChatSession.t) (currentSessionId : jsstring)
  (isFirstMessageInSession : bool) (st : AppState)
  : AppState * option Generation :=
  if negb (truthy currentSessionId)
  then (toast (toast_error (js "Failed to find/create chat session.")) st, None)
  else
    let st1 :=
      addMessageToActiveSession (userMessage newMessageId trimmedInput now)
        currentSessionId now st in
    let st2 :=
      if isFirstMessageInSession
      then updateSessionTitleIfNeeded currentSessionId trimmedInput now st1
      else st1 in
    performAICall trimmedInput sessionToUse (setInput [] st2).

(** [handleSubmit(e)]: [e] is the prompt when the argument is a string. *)
Definition handleSubmit (e : option jsstring)
  (newSessionId newMessageId : jsstring) (now : Date) (st : AppState)
  : AppState * option Generation :=
  let trimmedInput := trim (default (input st) e) in
  if negb (truthy trimmedInput) || isLoading st then (st, None)
  else
    match truthyId (activeSessionId st) with
    | None =>
        let s := newSession newSessionId now in
        submitTo trimmedInput newMessageId now s newSessionId true
          (setActiveSessionId (Some newSessionId) (setSessions (cons s) st))
    | Some currentSessionId =>
        match findSession (Some currentSessionId) (sessions st) with
        | Some s =>
            submitTo trimmedInput newMessageId now s currentSessionId
              (bool_decide (ChatSession.messages s = [])) st
        | None =>
            (toast (toast_error (js "Failed to find/create chat session.")) st,
             None)
        end
    end.

(** ** Events

    Everything that changes the state after start-up: the handlers above,
    and the resumption of a suspended [performAICall] with the completion
    of its backend call. *)
Inductive Event :=
| EvSubmit (e : option jsstring) (newSessionId newMessageId : jsstring) (now : Date)
| EvStopGenerating
| EvNewChat (seen : option ChatSession.t) (newId : jsstring) (now : Date)
| EvSelectChat (id : jsstring)
| EvDeleteChat (seen : list ChatSession.t) (id : jsstring)
| EvConfirmClick
| EvCancelClick
| EvDeleteMessage (messageId : jsstring) (now : Date)
| EvSaveEdit (eager : bool) (messageId newContent : jsstring) (now : Date)
| EvSaveChanges (tempSettings : ChatSettings.t) (now : Date)
| EvReset (now : Date)
| EvAppSettingsChange (newSettings : AppSettings.t)
| EvResume (g : Generation) (r : Completion) (newId : jsstring) (now : Date).

Definition run (ev : Event) (st : AppState) : AppState :=
  match ev with
  | EvSubmit e sid mid now => fst (handleSubmit e sid mid now st)
  | EvStopGenerating => handleStopGenerating st
  | EvNewChat seen newId now => handleNewChat seen newId now st
  | EvSelectChat id => handleSelectChat id st
  | EvDeleteChat seen id => handleDeleteChat seen id st
  | EvConfirmClick => handleConfirmClick st
  | EvCancelClick => handleCancelClick st
  | EvDeleteMessage mid now => handleDeleteMessage mid now st
  | EvSaveEdit eager mid c now => fst (handleSaveEdit eager mid c now st)
  | EvSaveChanges t now => handleSaveChanges t now st
  | EvReset now => handleReset now st
  | EvAppSettingsChange a => handleAppSettingsChange a st
  | EvResume g r newId now => performAICall_resume g r newId now st
  end.

Definition runs (evs : list Event) (st : AppState) : AppState :=
  foldl (fun s ev => run ev s) st evs.

(** ** Further handlers of [App] *)

(** [[...session.messages].reverse().find(m => m.role === 'user')] *)
Definition lastUserMessage (ms : list ChatMessage.t) : option ChatMessage.t :=
  find (fun m => bool_decide (ChatMessage.role m = user)) (rev ms).

Definition regeneratingIndicator (id : jsstring) (now : Date) : ChatMessage.t :=
  errorMessage id (js "Regenerating response...") now.

(** [handleRegenerate] up to the [await] of [performAICall]. *)
Definition handleRegenerate (indicatorId : jsstring) (now : Date)
  (st : AppState) : AppState * option Generation :=
  match truthyId (activeSessionId st) with
  | None => (st, None)
  | Some a =>
      if isLoading st then (st, None)
      else
        match findSession (Some a) (sessions st) with
        | None =>
            (toast (toast_error
                      (js "Cannot regenerate: Active session not found.")) st,
             None)
        | Some session =>
            match lastUserMessage (ChatSession.messages session) with
            | None =>
                (toast (toast_error
                          (js "Cannot regenerate: No previous user message found."))
                   st, None)
            | Some m =>
                performAICall (ChatMessage.content m) session
                  (addMessageToActiveSession
                     (regeneratingIndicator indicatorId now) a now st)
            end
        end
  end.

(** The title [handleRenameChat] stores. *)
Definition renamedTitle (newTitle : jsstring) : jsstring :=
  if truthy (trim newTitle) then trim newTitle else js "Untitled Chat".

Definition handleRenameChat (id newTitle : jsstring) (now : Date)
  (st : AppState) : AppState :=
  let oldTitle :=
    ChatSession.title
      <$> find (fun s => str_eqb (ChatSession.id s) id) (sessions st) in
  let st1 :=
    setSessions
      (map (fun s => if str_eqb (ChatSession.id s) id
                     then withTitle s (renamedTitle newTitle) now else s)) st in
  if bool_decide (oldTitle = Some (trim newTitle)) then st1
  else toast (toast_success (js "Chat renamed")) st1.

(** [handleSendPrompt] *)
Definition handleSendPrompt (prompt newSessionId newMessageId : jsstring)
  (now : Date) (st : AppState) : AppState * option Generation :=
  if negb (truthy prompt) || isLoading st then (st, None)
  else handleSubmit (Some prompt) newSessionId newMessageId now st.

(** The prop [showRegenerate] that [App] computes for the message at
    [index] of the active session [s]. *)
Definition showRegenerate (st : AppState) (s : ChatSession.t) (index : nat)
  (msg : ChatMessage.t) : bool :=
  bool_decide (ChatMessage.role msg = assistant)
  && negb (default false (ChatMessage.isError msg))
  && (Z.of_nat index =? Z.of_nat (length (ChatSession.messages s)) - 1)
  && negb (isLoading st).

(** ** [EditableTitle] *)

Module EditableTitle.
Record state := { isEditing : bool; title : jsstring }.

(** [handleSave]: the local state after the handler, and the argument of
    [onSave] when it is called. *)
Definition handleSave (initialTitle : jsstring) (st : state)
  : state * option jsstring :=
  let trimmedTitle := trim (title st) in
  if truthy trimmedTitle && negb (str_eqb trimmedTitle initialTitle)
  then ({| isEditing := false; title := title st |}, Some trimmedTitle)
  else if negb (truthy trimmedTitle)
       then ({| isEditing := false; title := initialTitle |}, None)
       else ({| isEditing := false; title := title st |}, None).
End EditableTitle.

(** The item of the sidebar for session [s]: [EditableTitle] with
    [initialTitle = s.title] and
    [onSave = newTitle => onRenameChat(s.id, newTitle)]; [typed] is the
    content of the input when it is saved. *)
Definition renameFromSidebar (s : ChatSession.t) (typed : jsstring)
  (now : Date) (st : AppState) : AppState :=
  match snd (EditableTitle.handleSave (ChatSession.title s)
               {| EditableTitle.isEditing := true;
                  EditableTitle.title := typed |}) with
  | Some newTitle => handleRenameChat (ChatSession.id s) newTitle now st
  | None => st
  end.

(** ** Choice of the provider in [ChatSettingsModal] *)

(** [MODEL_PROVIDERS[key]] for a key of the table. *)
Definition lookupProvider (key : jsstring) : option Provider :=
  snd <$> find (fun kp : jsstring * Provider => str_eqb (fst kp) key)
               MODEL_PROVIDERS.

Definition withModel (cs : ChatSettings.t) (m : jsstring) : ChatSettings.t :=
  {| ChatSettings.model := m;
     ChatSettings.temperature := ChatSettings.temperature cs;
     ChatSettings.systemPrompt := ChatSettings.systemPrompt cs;
     ChatSettings.maxTokens := ChatSettings.maxTokens cs;
     ChatSettings.topP := ChatSettings.topP cs |}.

(** [handleProviderSelect]: the new [tempSettings]. *)
Definition handleProviderSelect (newProviderId : jsstring)
  (tempSettings : ChatSettings.t) : ChatSettings.t :=
  match lookupProvider newProviderId ≫= fun p => head (p_models p) with
  | Some firstModel => withModel tempSettings (mi_id firstModel)
  | None => withModel tempSettings []
  end.

(** ** The API providers tab of [SettingsModal] *)

Module ApiProvidersTab.

(** [Partial<ApiProviderConfig>]: the fields the form holds. *)
Record form := {
  f_id : option jsstring;
  f_providerId : option jsstring;
  f_name : option jsstring;
  f_apiKey : option jsstring;
  f_baseUrl : option jsstring;
  f_status : option ApiProviderStatus
}.

(** [x?.trim() || undefined] *)
Definition trimmedOrUndefined (o : option jsstring) : option jsstring :=
  match o with
  | Some u => if truthy (trim u) then Some (trim u) else None
  | None => None
  end.

(** [!x?.trim()] *)
Definition blank (o : option jsstring) : bool :=
  match o with Some u => negb (truthy (trim u)) | None => true end.

(** [handleSaveNew]: the list handed to [onChange], if any, and the toast. *)
Definition handleSaveNew (newId : jsstring) (fd : form)
  (providers : list ApiProviderConfig.t)
  : option (list ApiProviderConfig.t) * Toast :=
  if blank (f_name fd) || blank (f_apiKey fd) || negb (truthyOpt (f_providerId fd))
  then (None, toast_error (js "Provider Type, Name, and API Key are required."))
  else
    let newConfig :=
      {| ApiProviderConfig.id := newId;
         ApiProviderConfig.providerId := default [] (f_providerId fd);
         ApiProviderConfig.name := trim (default [] (f_name fd));
         ApiProviderConfig.apiKey := trim (default [] (f_apiKey fd));
         ApiProviderConfig.baseUrl := trimmedOrUndefined (f_baseUrl fd);
         ApiProviderConfig.status := unknown;
         ApiProviderConfig.lastTested := None |} in
    (Some (providers ++ [newConfig]),
     toast_success (ApiProviderConfig.name newConfig ++ js " added")).

(** [{ ...p, ...providerFormData, baseUrl, status: 'unknown',
       lastTested: undefined }] *)
Definition merge (p : ApiProviderConfig.t) (fd : form) : ApiProviderConfig.t :=
  {| ApiProviderConfig.id := default (ApiProviderConfig.id p) (f_id fd);
     ApiProviderConfig.providerId :=
       default (ApiProviderConfig.providerId p) (f_providerId fd);
     ApiProviderConfig.name := default (ApiProviderConfig.name p) (f_name fd);
     ApiProviderConfig.apiKey :=
       default (ApiProviderConfig.apiKey p) (f_apiKey fd);
     ApiProviderConfig.baseUrl := trimmedOrUndefined (f_baseUrl fd);
     ApiProviderConfig.status := unknown;
     ApiProviderConfig.lastTested := None |}.

(** [handleSaveEdit] of the tab. *)
Definition handleSaveEdit (editingProviderId : option jsstring) (fd : form)
  (providers : list ApiProviderConfig.t)
  : option (list ApiProviderConfig.t) * Toast :=
  match truthyId editingProviderId with
  | Some e =>
      if truthyOpt (f_name fd) && truthyOpt (f_apiKey fd)
      then (Some (map (fun p => if str_eqb (ApiProviderConfig.id p) e
                                then merge p fd else p) providers),
            toast_success (default [] (f_name fd) ++ js " updated"))
      else (None, toast_error (js "Name and API Key cannot be empty."))
  | None => (None, toast_error (js "Name and API Key cannot be empty."))
  end.

(** [handleDeleteProvider]; [confirmed] is the answer to [window.confirm]. *)
Definition handleDeleteProvider (idToDelete : jsstring) (confirmed : bool)
  (providers : list ApiProviderConfig.t) : option (list ApiProviderConfig.t) :=
  if confirmed
  then Some (List.filter
               (fun p => negb (str_eqb (ApiProviderConfig.id p) idToDelete))
               providers)
  else None.

End ApiProvidersTab.

(** [handleApiProvidersChange] of [SettingsModal]:
    [handleTempChange('apiProviders', providers)] on [tempAppSettings]. *)
Definition handleApiProvidersChange (providers : list ApiProviderConfig.t)
  (tempAppSettings : AppSettings.t) : AppSettings.t :=
  {| AppSettings.defaultChatSettings :=
       AppSettings.defaultChatSettings tempAppSettings;
     AppSettings.apiProviders := providers;
     AppSettings.sendWithEnter := AppSettings.sendWithEnter tempAppSettings;
     AppSettings.uiDensity := AppSettings.uiDensity tempAppSettings |}.

(** Adding a provider in the settings dialog opened on the current
    settings, then [Save & Close]: [handleSaveNew], [handleSaveChanges] of
    [SettingsModal] and [handleAppSettingsChange]. *)
Definition addProviderAndSave (newId : jsstring) (fd : ApiProvidersTab.form)
  (st : AppState) : AppState :=
  let temp := appSettings st in
  let temp' :=
    match fst (ApiProvidersTab.handleSaveNew newId fd
                 (AppSettings.apiProviders temp)) with
    | Some providers => handleApiProvidersChange providers temp
    | None => temp
    end in
  toast (toast_success (js "Settings saved"))
    (toast (snd (ApiProvidersTab.handleSaveNew newId fd
                   (AppSettings.apiProviders temp)))
       (handleAppSettingsChange temp' st)).

(** ** The session selected at start-up *)

(** [[...loadedSessions].sort((a, b) => b.lastModified - a.lastModified)]:
    the stable sort by decreasing [lastModified], by insertion. *)
Fixpoint insertByLastModified (x : ChatSession.t) (l : list ChatSession.t)
  : list ChatSession.t :=
  match l with
  | [] => [x]
  | y :: r =>
      if (ChatSession.lastModified y <=? ChatSession.lastModified x)
      then x :: l
      else y :: insertByLastModified x r
  end.

Definition sortByLastModified (l : list ChatSession.t) : list ChatSession.t :=
  foldr insertByLastModified [] l.

(** The argument of [setActiveSessionId] after the sessions were loaded;
    [None] when it is not called. *)
Definition initialActiveSessionId (lastActiveId : option jsstring)
  (loadedSessions : list ChatSession.t) : option jsstring :=
  match truthyId lastActiveId with
  | Some l =>
      if existsb (fun s => str_eqb (ChatSession.id s) l) loadedSessions
      then Some l
      else ChatSession.id <$> head (sortByLastModified loadedSessions)
  | None => ChatSession.id <$> head (sortByLastModified loadedSessions)
  end.

(** ** Actions

    The events of above and the handlers added here. *)
Inductive Action :=
| ActEvent (ev : Event)
| ActRegenerate (indicatorId : jsstring) (now : Date)
| ActRenameChat (id newTitle : jsstring) (now : Date)
| ActSendPrompt (prompt newSessionId newMessageId : jsstring) (now : Date).

Definition perform (a : Action) (st : AppState) : AppState :=
  match a with
  | ActEvent ev => run ev st
  | ActRegenerate i now => fst (handleRegenerate i now st)
  | ActRenameChat id t now => handleRenameChat id t now st
  | ActSendPrompt p sid mid now => fst (handleSendPrompt p sid mid now st)
  end.

(** The id an action hands to a session it may create. *)
Definition mintedSessionId (a : Action) : option jsstring :=
  match a with
  | ActEvent (EvSubmit _ sid _ _) => Some sid
  | ActEvent (EvNewChat _ newId _) => Some newId
  | ActSendPrompt _ sid _ _ => Some sid
  | _ => None
  end.

(** Abort signals are never reset: a controller aborted in heap [h] is
    still aborted in heap [h']. *)
Definition heap_le (h h' : list bool) : Prop :=
  forall k, h !! k = Some true -> h' !! k = Some true.

(** The controller held by the ref is one of the heap. *)
Definition ref_in_range (st : AppState) : Prop :=
  forall k, abortControllerRef st = Some k -> (k < length (signals st))%nat.

(** The states the application goes through: it starts with no controller,
    and every event leads from one state to the next. *)
Inductive reachable : AppState -> Prop :=
| reachable_start (st : AppState) :
    abortControllerRef st = None -> signals st = [] -> reachable st
| reachable_run (ev : Event) (st : AppState) :
    reachable st -> reachable (run ev st).

(** ** Sample states *)

Module Sample.

Definition hello : ChatMessage.t := userMessage (js "m1") (js "hi") 10.
Definition reply : ChatMessage.t :=
  assistantMessage (js "m2") (js "hello") 11.
Definition again : ChatMessage.t := userMessage (js "m3") (js "more") 12.
Definition reply2 : ChatMessage.t :=
  assistantMessage (js "m4") (js "sure") 13.

Definition chatA : ChatSession.t :=
  {| ChatSession.id := js "a"; ChatSession.title := js "First";
     ChatSession.messages := [hello; reply; again; reply2];
     ChatSession.createdAt := 1; ChatSession.lastModified := 13;
     ChatSession.settings := None |}.

Definition chatB : ChatSession.t :=
  {| ChatSession.id := js "b"; ChatSession.title := js "New Chat";
     ChatSession.messages := [];
     ChatSession.createdAt := 2; ChatSession.lastModified := 2;
     ChatSession.settings := None |}.

Definition openaiKey : ApiProviderConfig.t :=
  {| ApiProviderConfig.id := js "p1";
     ApiProviderConfig.providerId := js "openai";
     ApiProviderConfig.name := js "My key";
     ApiProviderConfig.apiKey := js "sk-test";
     ApiProviderConfig.baseUrl := None;
     ApiProviderConfig.status := unknown;
     ApiProviderConfig.lastTested := None |}.

Definition withKey : AppSettings.t :=
  {| AppSettings.defaultChatSettings := DEFAULT_CHAT_SETTINGS;
     AppSettings.apiProviders := [openaiKey];
     AppSettings.sendWithEnter := true;
     AppSettings.uiDensity := comfortable |}.

(** Two chats, the first one displayed, no provider configured. *)
Definition idle : AppState :=
  {| input := []; sessions := [chatA; chatB];
     activeSessionId := Some (js "a"); isLoading := false;
     isChatSettingsModalOpen := false; editingMessageId := None;
     appSettings := DEFAULT_APP_SETTINGS;
     isConfirmModalOpen := false; confirmModalProps := None;
     abortControllerRef := None; signals := [];
     toasts := []; backendCalls := 0 |}.

(** The same with a key for OpenAI. *)
Definition ready : AppState := setAppSettings withKey idle.

(** A generation for [chatA] is in flight. *)
Definition generating : AppState := fst (performAICall (js "more") chatA ready).

Definition inFlight : Generation :=
  {| g_prompt := js "more"; sessionForCall := chatA;
     settingsToUse := DEFAULT_CHAT_SETTINGS; g_apiKey := js "sk-test";
     g_baseUrl := None; signal := 0 |}.

(** The user made GPT-4o the global default model, and chat ["a"]
    carries an override for Claude 3 Opus. *)
(** The confirmation for chat ["a"] is asked while nothing is in flight,
    and a prompt is sent before it is answered. *)
Definition asked : AppState :=
  handleDeleteChat (sessions ready) (js "a") ready.

Definition askedThenSent : AppState :=
  fst (handleSubmit (Some (js "more")) (js "n") (js "m5") 13 asked).

Definition gpt4o : ChatSettings.t :=
  {| ChatSettings.model := js "gpt-4o";
     ChatSettings.temperature := 7 # 10;
     ChatSettings.systemPrompt := Some [];
     ChatSettings.maxTokens := None;
     ChatSettings.topP := None |}.

Definition opus : ChatSettings.t :=
  {| ChatSettings.model := js "claude-3-opus-20240229";
     ChatSettings.temperature := 7 # 10;
     ChatSettings.systemPrompt := Some [];
     ChatSettings.maxTokens := None;
     ChatSettings.topP := None |}.

Definition customised : AppState :=
  setSessions (fun _ => [withSettings chatA (Some opus) 13; chatB])
    (setAppSettings
       {| AppSettings.defaultChatSettings := gpt4o;
          AppSettings.apiProviders := [];
          AppSettings.sendWithEnter := true;
          AppSettings.uiDensity := comfortable |} idle).

End Sample.

(** ** Basic facts *)

Lemma str_eqb_eq (a b : jsstring) : str_eqb a b = true <-> a = b.
Proof. unfold str_eqb. apply bool_decide_eq_true. Qed.

Lemma str_eqb_neq (a b : jsstring) : str_eqb a b = false <-> a <> b.
Proof. unfold str_eqb. apply bool_decide_eq_false. Qed.

Lemma str_eqb_refl (a : jsstring) : str_eqb a a = true.
Proof. by apply str_eqb_eq. Qed.

Lemma truthy_nonempty (s : jsstring) : truthy s = true <-> s <> [].
Proof. destruct s; simpl; split; congruence. Qed.

Lemma setSessions_same (f : list ChatSession.t -> list ChatSession.t)
  (st : AppState) :
  f (sessions st) = sessions st -> setSessions f st = st.
Proof. destruct st; unfold setSessions; simpl. by intros ->. Qed.

(** A [map] that rewrites the sessions of one id only leaves a collection
    without that id as it is. *)
Lemma map_other_id (f : ChatSession.t -> ChatSession.t) (sessionId : jsstring)
  (l : list ChatSession.t) :
  (forall s, s ∈ l -> ChatSession.id s <> sessionId) ->
  map (fun s => if str_eqb (ChatSession.id s) sessionId then f s else s) l = l.
Proof.
  induction l as [|s l IH]; intros Hall; simpl; [done|].
  rewrite IH by (intros s' Hs'; apply Hall; by right).
  assert (str_eqb (ChatSession.id s) sessionId = false) as ->; [|done].
  apply str_eqb_neq, Hall. by left.
Qed.

(** What [appendTo] does to the session at each position. *)
Lemma appendTo_lookup (sessionId : jsstring) (message : ChatMessage.t)
  (now : Date) (prev : list ChatSession.t) (i : nat) (s : ChatSession.t) :
  prev !! i = Some s ->
  appendTo sessionId message now prev !! i
  = Some (if str_eqb (ChatSession.id s) sessionId
          then withMessages s (ChatSession.messages s ++ [message]) now
          else s).
Proof.
  intros Hi. unfold appendTo.
  change (map ?f prev) with (f <$> prev).
  by rewrite list_lookup_fmap, Hi.
Qed.

Lemma appendTo_length (sessionId : jsstring) (message : ChatMessage.t)
  (now : Date) (prev : list ChatSession.t) :
  length (appendTo sessionId message now prev) = length prev.
Proof. unfold appendTo. apply length_map. Qed.

(** ** Appending to a session that is gone *)

(** C10. [addMessageToActiveSession] targets the session by id: when no
    session of the collection has the id, the whole state, and so the whole
    collection, is returned as it was.  The function is total: nothing is
    raised, no session is created and none is modified. *)
Theorem C10_append_to_absent_session (message : ChatMessage.t)
  (sessionId : jsstring) (now : Date) (st : AppState) :
  (forall s, s ∈ sessions st -> ChatSession.id s <> sessionId) ->
  addMessageToActiveSession message sessionId now st = st.
Proof.
  intros Habsent. unfold addMessageToActiveSession.
  destruct (truthy sessionId); simpl; [|done].
  apply setSessions_same. unfold appendTo.
  by apply (map_other_id (fun s => withMessages s _ now)).
Qed.

Lemma C10_witness :
  addMessageToActiveSession Sample.reply (js "deleted") 99 Sample.idle
  = Sample.idle.
Proof.
  apply C10_append_to_absent_session.
  intros s Hs. apply list_elem_of_In in Hs. simpl in Hs.
  destruct Hs as [<-|[<-|[]]]; vm_compute; discriminate.
Defined.

(** ** The automatic title *)

Lemma length_js_dots : length (js "...") = 3%nat.
Proof. reflexivity. Qed.

Lemma deriveTitle_long (c : jsstring) :
  (35 < length (titleWords c))%nat ->
  deriveTitle c = take 32 (titleWords c) ++ js "...".
Proof.
  intros Hlen. unfold deriveTitle.
  apply Nat.ltb_lt in Hlen. rewrite Hlen.
  destruct (take 32 (titleWords c)); reflexivity.
Qed.

Lemma deriveTitle_short (c : jsstring) :
  (length (titleWords c) <= 35)%nat -> titleWords c <> [] ->
  deriveTitle c = titleWords c.
Proof.
  intros Hlen Hne. unfold deriveTitle.
  apply Nat.ltb_ge in Hlen. rewrite Hlen.
  by destruct (titleWords c).
Qed.

Lemma deriveTitle_empty (c : jsstring) :
  titleWords c = [] -> deriveTitle c = js "Chat".
Proof. intros Hw. unfold deriveTitle. by rewrite Hw. Qed.

Lemma deriveTitle_length (c : jsstring) : (length (deriveTitle c) <= 35)%nat.
Proof.
  destruct (decide (35 < length (titleWords c))%nat) as [Hlong|Hshort].
  - rewrite deriveTitle_long by done.
    rewrite length_app, length_take, length_js_dots. lia.
  - destruct (decide (titleWords c = [])) as [He|Hne].
    + rewrite deriveTitle_empty by done. vm_compute. lia.
    + rewrite deriveTitle_short by (done || lia). lia.
Qed.

Lemma needsTitle_spec (sessionId : jsstring) (s : ChatSession.t) :
  needsTitle sessionId s = true
  <-> ChatSession.id s = sessionId
      /\ (ChatSession.title s = js "New Chat" \/ ChatSession.title s = []).
Proof.
  unfold needsTitle.
  rewrite andb_true_iff, orb_true_iff, !str_eqb_eq, negb_true_iff.
  destruct (ChatSession.title s); simpl; intuition congruence.
Qed.




(** ** Frame lemmas of [performAICall] *)

Lemma addMessage_sessions_truthy (m : ChatMessage.t) (sid : jsstring)
  (now : Date) (st : AppState) :
  truthy sid = true ->
  sessions (addMessageToActiveSession m sid now st)
  = appendTo sid m now (sessions st).
Proof. intros H. unfold addMessageToActiveSession. by rewrite H. Qed.

Lemma addMessage_frame (m : ChatMessage.t) (sid : jsstring) (now : Date)
  (st : AppState) :
  let st' := addMessageToActiveSession m sid now st in
  signals st' = signals st /\ toasts st' = toasts st
  /\ isLoading st' = isLoading st
  /\ abortControllerRef st' = abortControllerRef st
  /\ activeSessionId st' = activeSessionId st
  /\ backendCalls st' = backendCalls st.
Proof. unfold addMessageToActiveSession. by destruct (truthy sid). Qed.

Lemma finally_frame (g : Generation) (st : AppState) :
  let st' := performAICall_finally g st in
  sessions st' = sessions st /\ signals st' = signals st
  /\ toasts st' = toasts st /\ backendCalls st' = backendCalls st
  /\ activeSessionId st' = activeSessionId st
  /\ abortControllerRef st' = None.
Proof. unfold performAICall_finally. by destruct (aborted (signal g) st). Qed.

(** The backend of the source never returns a text once the signal fired. *)
Lemma awaitBackend_aborted (g : Generation) (variation : jsstring)
  (st : AppState) :
  truthy (g_apiKey g) = true -> aborted (signal g) st = true ->
  awaitBackend g variation st = Threw AbortError.
Proof.
  intros Hkey Hab. unfold awaitBackend, simulateAIResponse; simpl.
  by rewrite Hkey, Hab.
Qed.

Lemma awaitBackend_live (g : Generation) (variation : jsstring)
  (st : AppState) :
  truthy (g_apiKey g) = true -> aborted (signal g) st = false ->
  exists text, awaitBackend g variation st = Returned text.
Proof.
  intros Hkey Hab. unfold awaitBackend, simulateAIResponse; simpl.
  rewrite Hkey, Hab; simpl. eauto.
Qed.

(** Resuming with any completion appends one assistant message, except
    when a text is returned after the signal fired: then nothing is
    appended. *)
Lemma resume_sessions (g : Generation) (r : Completion) (newId : jsstring)
  (now : Date) (st : AppState) :
  (exists text, r = Returned text /\ aborted (signal g) st = true
                /\ sessions (performAICall_resume g r newId now st) = sessions st)
  \/ (exists m, ChatMessage.id m = newId /\ ChatMessage.role m = assistant
        /\ sessions (performAICall_resume g r newId now st)
           = sessions (addMessageToActiveSession m
                         (ChatSession.id (sessionForCall g)) now st)).
Proof.
  unfold performAICall_resume.
  rewrite (proj1 (finally_frame g _)).
  destruct r as [text|e]; simpl.
  - destruct (aborted (signal g) st) eqn:Hab.
    + left. eauto.
    + right. by exists (assistantMessage newId text now).
  - right. destruct (str_eqb (e_name e) (js "AbortError")).
    + by exists (stoppedMessage newId now).
    + by exists (errorMessage newId (js "Error: " ++ e_message e) now).
Qed.

Lemma resume_returned_after_abort (g : Generation) (text newId : jsstring)
  (now : Date) (st : AppState) :
  aborted (signal g) st = true ->
  sessions (performAICall_resume g (Returned text) newId now st) = sessions st.
Proof.
  intros Hab. unfold performAICall_resume.
  rewrite (proj1 (finally_frame g _)). simpl. by rewrite Hab.
Qed.

Lemma settle_aborted (g : Generation) (variation newId : jsstring) (now : Date)
  (st : AppState) :
  truthy (g_apiKey g) = true -> aborted (signal g) st = true ->
  performAICall_settle g variation newId now st
  = performAICall_finally g
      (addMessageToActiveSession (stoppedMessage newId now)
         (ChatSession.id (sessionForCall g)) now st).
Proof.
  intros Hkey Hab. unfold performAICall_settle.
  by rewrite awaitBackend_aborted.
Qed.

Lemma settle_live (g : Generation) (variation newId : jsstring) (now : Date)
  (st : AppState) :
  truthy (g_apiKey g) = true -> aborted (signal g) st = false ->
  exists text,
    performAICall_settle g variation newId now st
    = performAICall_finally g
        (addMessageToActiveSession (assistantMessage newId text now)
           (ChatSession.id (sessionForCall g)) now st).
Proof.
  intros Hkey Hab. unfold performAICall_settle.
  destruct (awaitBackend_live g variation st Hkey Hab) as [text ->].
  exists text. unfold performAICall_resume; simpl. by rewrite Hab.
Qed.

(** ** Abort signals are stable under every event *)

Lemma heap_le_refl (h : list bool) : heap_le h h.
Proof. by intros k. Qed.

Lemma heap_le_trans (h1 h2 h3 : list bool) :
  heap_le h1 h2 -> heap_le h2 h3 -> heap_le h1 h3.
Proof. intros H12 H23 k Hk. by apply H23, H12. Qed.

Lemma heap_le_abort (k : nat) (h : list bool) : heap_le h (<[k := true]> h).
Proof.
  intros k' Hk'. destruct (decide (k = k')) as [->|Hne].
  - apply list_lookup_insert_eq. by eapply lookup_lt_Some.
  - by rewrite list_lookup_insert_ne.
Qed.

Lemma heap_le_new (h : list bool) : heap_le h (h ++ [false]).
Proof. intros k Hk. by apply lookup_app_l_Some. Qed.

Create HintDb heap.
#[local] Hint Resolve heap_le_refl heap_le_abort heap_le_new : heap.

Lemma signals_abort_if_loading (st : AppState) (after : AppState -> AppState) :
  (forall s, signals (after s) = signals s) ->
  heap_le (signals st)
    (signals match isLoading st, abortControllerRef st with
             | true, Some k => after (abort k st)
             | _, _ => st
             end).
Proof.
  intros Hafter.
  destruct (isLoading st), (abortControllerRef st);
    rewrite ?Hafter; simpl; auto with heap.
Qed.

Lemma signals_performAICall (prompt : jsstring) (session : ChatSession.t)
  (st : AppState) :
  heap_le (signals st) (signals (fst (performAICall prompt session st))).
Proof.
  unfold performAICall.
  destruct (ApiProviderConfig.apiKey <$> _) as [key|];
    [destruct (truthy key)|]; simpl; auto with heap.
Qed.

Lemma signals_submitTo (t mid : jsstring) (now : Date) (s : ChatSession.t)
  (cur : jsstring) (first : bool) (st : AppState) :
  heap_le (signals st) (signals (fst (submitTo t mid now s cur first st))).
Proof.
  unfold submitTo. destruct (truthy cur); simpl; [|auto with heap].
  eapply heap_le_trans; [|apply signals_performAICall].
  destruct first; simpl;
    rewrite (proj1 (addMessage_frame _ _ _ _)); auto with heap.
Qed.

Lemma signals_handleSubmit (e : option jsstring) (sid mid : jsstring)
  (now : Date) (st : AppState) :
  heap_le (signals st) (signals (fst (handleSubmit e sid mid now st))).
Proof.
  unfold handleSubmit.
  destruct (negb _ || isLoading st); simpl; [auto with heap|].
  destruct (truthyId (activeSessionId st)) as [cur|].
  - unfold findSession. destruct (find _ (sessions st)); simpl;
      [apply signals_submitTo|auto with heap].
  - eapply heap_le_trans; [|apply signals_submitTo]. simpl. auto with heap.
Qed.

Lemma policy_frame (eager : bool) (messageId newContent : jsstring) (now : Date)
  (st : AppState) :
  let st' := fst (handleSaveEdit_policy eager messageId newContent now st) in
  signals st' = signals st /\ isLoading st' = isLoading st
  /\ abortControllerRef st' = abortControllerRef st
  /\ activeSessionId st' = activeSessionId st
  /\ appSettings st' = appSettings st
  /\ backendCalls st' = backendCalls st.
Proof.
  unfold handleSaveEdit_policy.
  destruct (truthyId (activeSessionId st)); [|done].
  destruct (negb (truthy (trim newContent))); [done|].
  by destruct (editSessions _ _ _ _ _ _).
Qed.

Lemma signals_handleSaveEdit (eager : bool) (messageId newContent : jsstring)
  (now : Date)
  (st : AppState) :
  heap_le (signals st) (signals (fst (handleSaveEdit eager messageId newContent now st))).
Proof.
  unfold handleSaveEdit.
  pose proof (policy_frame eager messageId newContent now st) as [Hsig _].
  destruct (handleSaveEdit_policy eager messageId newContent now st)
    as [st1 [[p s]|]]; simpl in *.
  - rewrite <- Hsig. apply signals_performAICall.
  - rewrite Hsig. auto with heap.
Qed.

Lemma signals_runDeleteChat (c : DeleteChatClosure) (st : AppState) :
  heap_le (signals st) (signals (runDeleteChat c st)).
Proof.
  unfold runDeleteChat; simpl.
  case_bool_decide; simpl; [|auto with heap].
  destruct (dc_isLoading c), (abortControllerRef st); simpl; auto with heap.
Qed.

Lemma signals_settings (temp : ChatSettings.t) (now : Date) (st : AppState) :
  signals (handleSaveChanges temp now st) = signals st
  /\ signals (handleReset now st) = signals st.
Proof.
  unfold handleSaveChanges, handleReset.
  destruct (truthyId (activeSessionId st)); [|done].
  destruct (negb (json_eqb temp DEFAULT_CHAT_SETTINGS)); [done|].
  by destruct (negb (isUsingDefaultSettings st)).
Qed.

Lemma signals_resume (g : Generation) (r : Completion) (newId : jsstring)
  (now : Date) (st : AppState) :
  signals (performAICall_resume g r newId now st) = signals st.
Proof.
  unfold performAICall_resume.
  rewrite (proj1 (proj2 (finally_frame g _))).
  destruct r as [text|e]; simpl.
  - destruct (aborted (signal g) st); [done|].
    apply addMessage_frame.
  - destruct (str_eqb _ _); simpl; apply addMessage_frame.
Qed.

(** No event resets a signal. *)
Lemma signals_run (ev : Event) (st : AppState) :
  heap_le (signals st) (signals (run ev st)).
Proof.
  destruct ev; cbn [run].
  - apply signals_handleSubmit.
  - unfold handleStopGenerating.
    apply (signals_abort_if_loading st (fun s => s)). done.
  - unfold handleNewChat.
    destruct seen as [[? ? [|] ? ? ?]|]; simpl; auto with heap;
      apply (signals_abort_if_loading st (fun s => s)); done.
  - unfold handleSelectChat; simpl.
    apply (signals_abort_if_loading st (setIsLoading false)). done.
  - simpl. auto with heap.
  - unfold handleConfirmClick; simpl.
    destruct (confirmModalProps st); [apply signals_runDeleteChat|auto with heap].
  - simpl. auto with heap.
  - unfold handleDeleteMessage.
    destruct (truthyId (activeSessionId st)); simpl; auto with heap.
  - apply signals_handleSaveEdit.
  - rewrite (proj1 (signals_settings tempSettings now st)). auto with heap.
  - rewrite (proj2 (signals_settings DEFAULT_CHAT_SETTINGS now st)).
    auto with heap.
  - simpl. auto with heap.
  - rewrite signals_resume. auto with heap.
Qed.

Lemma signals_runs (evs : list Event) (st : AppState) :
  heap_le (signals st) (signals (runs evs st)).
Proof.
  revert st. induction evs as [|ev evs IH]; intros st; simpl.
  - apply heap_le_refl.
  - eapply heap_le_trans; [apply signals_run|apply IH].
Qed.

Lemma aborted_true (k : nat) (st : AppState) :
  aborted k st = true <-> signals st !! k = Some true.
Proof.
  unfold aborted. destruct (signals st !! k) as [[]|]; simpl; split; congruence.
Qed.

(** Once aborted, always aborted. *)
Lemma aborted_runs (k : nat) (evs : list Event) (st : AppState) :
  aborted k st = true -> aborted k (runs evs st) = true.
Proof. rewrite !aborted_true. apply signals_runs. Qed.

(** ** The ref points into the heap *)

Lemma range_frame (st st' : AppState) :
  abortControllerRef st' = abortControllerRef st ->
  length (signals st') = length (signals st) ->
  ref_in_range st -> ref_in_range st'.
Proof. intros Href Hlen Hst k. rewrite Href, Hlen. apply Hst. Qed.

Lemma range_abort_if_loading (st : AppState) (after : AppState -> AppState) :
  (forall s, signals (after s) = signals s
             /\ abortControllerRef (after s) = abortControllerRef s) ->
  ref_in_range st ->
  ref_in_range match isLoading st, abortControllerRef st with
               | true, Some k => after (abort k st)
               | _, _ => st
               end.
Proof.
  intros Hafter Hst.
  destruct (isLoading st), (abortControllerRef st) as [k|] eqn:Href;
    try done.
  apply (range_frame st); [..|done].
  - by rewrite (proj2 (Hafter _)).
  - rewrite (proj1 (Hafter _)). simpl. apply length_insert.
Qed.

Lemma range_performAICall (prompt : jsstring) (session : ChatSession.t)
  (st : AppState) :
  ref_in_range st -> ref_in_range (fst (performAICall prompt session st)).
Proof.
  intros Hst. unfold performAICall.
  destruct (ApiProviderConfig.apiKey <$> _) as [key|];
    [destruct (truthy key)|]; simpl; try done.
  intros k [= <-]. simpl. rewrite length_app. simpl. lia.
Qed.

Lemma range_submitTo (t mid : jsstring) (now : Date) (s : ChatSession.t)
  (cur : jsstring) (first : bool) (st : AppState) :
  ref_in_range st -> ref_in_range (fst (submitTo t mid now s cur first st)).
Proof.
  intros Hst. unfold submitTo. destruct (truthy cur); simpl; [|done].
  apply range_performAICall.
  pose proof (addMessage_frame (userMessage mid t now) cur now st)
    as (Hsig & _ & _ & Href & _).
  cbv zeta in Hsig, Href.
  apply (range_frame st); [..|done]; destruct first; simpl; congruence.
Qed.

Lemma range_run (ev : Event) (st : AppState) :
  ref_in_range st -> ref_in_range (run ev st).
Proof.
  intros Hst. destruct ev; cbn [run].
  - unfold handleSubmit.
    destruct (negb _ || isLoading st); simpl; [done|].
    destruct (truthyId (activeSessionId st)) as [cur|].
    + unfold findSession. destruct (find _ (sessions st)); simpl;
        [by apply range_submitTo|done].
    + by apply range_submitTo.
  - unfold handleStopGenerating.
    by apply (range_abort_if_loading st (fun s => s)).
  - unfold handleNewChat.
    destruct seen as [[? ? [|] ? ? ?]|]; try done;
      apply (range_frame
               match isLoading st, abortControllerRef st with
               | true, Some k => abort k st
               | _, _ => st
               end); try done;
      by apply (range_abort_if_loading st (fun s => s)).
  - unfold handleSelectChat.
    apply (range_frame
             match isLoading st, abortControllerRef st with
             | true, Some k => setIsLoading false (abort k st)
             | _, _ => st
             end); try done.
    by apply (range_abort_if_loading st (setIsLoading false)).
  - done.
  - unfold handleConfirmClick.
    destruct (confirmModalProps st) as [p|]; [|done].
    apply (range_frame st); [..|done];
      unfold runDeleteChat; simpl; case_bool_decide; simpl; try done;
      destruct (dc_isLoading (cm_onConfirm p)),
        (abortControllerRef st) eqn:Href;
      simpl; try done; apply length_insert.
  - done.
  - unfold handleDeleteMessage.
    by destruct (truthyId (activeSessionId st)).
  - unfold handleSaveEdit.
    pose proof (policy_frame eager messageId newContent now st)
      as (Hsig & _ & Href & _).
    destruct (handleSaveEdit_policy eager messageId newContent now st)
      as [st1 [[p s]|]]; simpl in *.
    + apply range_performAICall, (range_frame st); [congruence..|done].
    + apply (range_frame st); [congruence..|done].
  - apply (range_frame st); [..|done];
      [|by rewrite (proj1 (signals_settings tempSettings now st))].
    unfold handleSaveChanges, handleReset.
    destruct (truthyId (activeSessionId st)); [|done].
    destruct (negb (json_eqb tempSettings DEFAULT_CHAT_SETTINGS)); [done|].
    by destruct (negb (isUsingDefaultSettings st)).
  - apply (range_frame st); [..|done];
      unfold handleReset; by destruct (truthyId (activeSessionId st)).
  - done.
  - intros k. unfold performAICall_resume.
    by rewrite (proj2 (proj2 (proj2 (proj2 (proj2 (finally_frame g _)))))).
Qed.

(** In every reachable state the ref, when set, designates a controller of
    the heap. *)
Lemma reachable_in_range (st : AppState) : reachable st -> ref_in_range st.
Proof.
  induction 1 as [st Href _|ev st _ IH].
  - intros k. by rewrite Href.
  - by apply range_run.
Qed.

(** ** One terminal message per generation *)

Lemma appended_lookup (g : Generation) (m : ChatMessage.t) (sid : jsstring)
  (now : Date) (st : AppState) (i : nat) (s : ChatSession.t) :
  truthy sid = true -> sessions st !! i = Some s -> ChatSession.id s = sid ->
  sessions (performAICall_finally g (addMessageToActiveSession m sid now st)) !! i
  = Some (withMessages s (ChatSession.messages s ++ [m]) now).
Proof.
  intros Hsid Hi Hid.
  rewrite (proj1 (finally_frame g _)), addMessage_sessions_truthy by done.
  rewrite (appendTo_lookup _ _ _ _ _ _ Hi).
  by rewrite <- Hid, str_eqb_refl.
Qed.

(** What one call of [addMessageToActiveSession], followed by the
    [finally] of [performAICall], does to the collection: the sessions that
    have the id get the message at the end, the others are as before. *)
Lemma appended_at (g : Generation) (m : ChatMessage.t) (sid : jsstring)
  (now : Date) (st : AppState) :
  let st' := performAICall_finally g (addMessageToActiveSession m sid now st) in
  length (sessions st') = length (sessions st)
  /\ (forall i s, sessions st !! i = Some s ->
        exists s',
          sessions st' !! i = Some s'
          /\ (truthy sid = true -> ChatSession.id s = sid ->
              ChatSession.messages s' = ChatSession.messages s ++ [m]
              /\ ChatSession.id s' = ChatSession.id s
              /\ ChatSession.title s' = ChatSession.title s
              /\ ChatSession.createdAt s' = ChatSession.createdAt s
              /\ ChatSession.settings s' = ChatSession.settings s
              /\ ChatSession.lastModified s' = now)
          /\ (truthy sid = false \/ ChatSession.id s <> sid -> s' = s))
  /\ ((forall s, s ∈ sessions st -> ChatSession.id s <> sid) ->
      sessions st' = sessions st).
Proof.
  cbv zeta. rewrite (proj1 (finally_frame g _)).
  unfold addMessageToActiveSession.
  destruct (truthy sid) eqn:Hsid; simpl.
  - split; [apply appendTo_length|]. split.
    + intros i s Hi. rewrite (appendTo_lookup _ _ _ _ _ _ Hi).
      destruct (str_eqb (ChatSession.id s) sid) eqn:Hid.
      * eexists. split; [done|]. split; [done|].
        apply str_eqb_eq in Hid. by intros [|].
      * eexists. split; [done|]. split; [|done].
        apply str_eqb_neq in Hid. by intros _ ?.
    + intros Habsent. by apply map_other_id.
  - split; [done|]. split; [|done].
    intros i s Hi. exists s. split; [done|]. by split.
Qed.




(** ** Cancellation *)



(** C2 (as the specification has it) fails when the generation is cancelled
    by deleting its session: the generation of the sample is bound to chat
    ["a"] and had not been aborted; confirming the deletion of ["a"] aborts
    it, its backend call is rejected with [AbortError], and settling it
    leaves the collection with the other chat alone, as it was: no stopped
    notice is appended anywhere. *)
Lemma C2_counterexample :
  ChatSession.id (sessionForCall Sample.inFlight) = js "a"
  /\ aborted (signal Sample.inFlight) Sample.generating = false
  /\ aborted (signal Sample.inFlight)
       (handleConfirmClick
          (handleDeleteChat (sessions Sample.generating) (js "a")
             Sample.generating)) = true
  /\ awaitBackend Sample.inFlight []
       (handleConfirmClick
          (handleDeleteChat (sessions Sample.generating) (js "a")
             Sample.generating)) = Threw AbortError
  /\ sessions
       (handleConfirmClick
          (handleDeleteChat (sessions Sample.generating) (js "a")
             Sample.generating)) = [Sample.chatB]
  /\ sessions
       (performAICall_settle Sample.inFlight [] (js "m5") 14
          (handleConfirmClick
             (handleDeleteChat (sessions Sample.generating) (js "a")
                Sample.generating))) = [Sample.chatB]
  /\ ChatSession.messages Sample.chatB = [].
Proof. vm_compute. done. Qed.

(** ** Selecting a session *)

Lemma aborted_abort (k : nat) (st : AppState) :
  (k < length (signals st))%nat -> aborted k (abort k st) = true.
Proof.
  intros Hk. unfold aborted, abort; simpl.
  by rewrite list_lookup_insert_eq.
Qed.

(** C7 (as the code has it).  While a generation is in flight (the state
    is loading and the ref holds the controller of [g]),
    [handleSelectChat] aborts it before it changes the selection, whichever
    session is selected: a different one or the one [g] is bound to.  The
    sessions themselves are not touched.  (The ref designates a controller
    of the heap in every reachable state: [reachable_in_range].) *)
Theorem C7_select_cancels (id : jsstring) (g : Generation) (st : AppState) :
  isLoading st = true ->
  abortControllerRef st = Some (signal g) ->
  (signal g < length (signals st))%nat ->
  let st' := handleSelectChat id st in
  aborted (signal g) st' = true
  /\ isLoading st' = false
  /\ activeSessionId st' = Some id
  /\ sessions st' = sessions st.
Proof.
  intros Hload Href Hk. unfold handleSelectChat.
  rewrite Hload, Href. repeat split.
  by apply aborted_abort.
Qed.

(** Selecting a chat other than the one being answered. *)
Lemma C7_witness :
  aborted 0 (handleSelectChat (js "b") Sample.generating) = true.
Proof.
  apply (C7_select_cancels (js "b") Sample.inFlight Sample.generating);
    [reflexivity | reflexivity | vm_compute; lia].
Defined.

(** C7 (as the specification has it) fails: the generation of the sample is
    bound to chat ["a"], was not aborted, and selecting ["a"] aborts it; it
    then ends with the stopped message. *)
Lemma C7_counterexample :
  ChatSession.id (sessionForCall Sample.inFlight) = js "a"
  /\ snd (performAICall (js "more") Sample.chatA Sample.ready)
     = Some Sample.inFlight
  /\ aborted (signal Sample.inFlight) Sample.generating = false
  /\ aborted (signal Sample.inFlight)
       (handleSelectChat (js "a") Sample.generating) = true
  /\ awaitBackend Sample.inFlight []
       (handleSelectChat (js "a") Sample.generating) = Threw AbortError.
Proof. vm_compute. done. Qed.

(** ** Deleting a session *)



(** ** Editing a message *)

Section edit.
Variables (a messageId t : jsstring) (now : Date).

(** Sessions of another id do not touch the shared variables. *)
Lemma editSession_other (v : EditVars) (s : ChatSession.t) :
  ChatSession.id s <> a -> editSession a messageId t now v s = (v, s).
Proof.
  intros Hne. unfold editSession.
  by rewrite (proj2 (str_eqb_neq _ _) Hne).
Qed.

Lemma editSessions_other (v : EditVars) (l : list ChatSession.t) :
  (forall s, s ∈ l -> ChatSession.id s <> a) ->
  editSessions a messageId t now v l = (v, l).
Proof.
  induction l as [|s l IH]; intros Hall; simpl; [done|].
  rewrite editSession_other by (apply Hall; by left).
  rewrite IH; [done|]. intros s' Hs'. apply Hall. by right.
Qed.

(** With distinct ids the updater rewrites the one session of id [a]. *)
Lemma editSessions_at (v : EditVars) (l : list ChatSession.t) (i : nat)
  (s : ChatSession.t) :
  NoDup (map ChatSession.id l) -> l !! i = Some s -> ChatSession.id s = a ->
  editSessions a messageId t now v l
  = (fst (editSession a messageId t now v s),
     <[i := snd (editSession a messageId t now v s)]> l).
Proof.
  revert i. induction l as [|h l IH]; intros i Hnodup Hi Hid; [done|].
  simpl in Hnodup.
  pose proof (NoDup_cons_1_1 _ _ Hnodup) as Hh.
  apply NoDup_cons_1_2 in Hnodup.
  destruct i as [|i]; simpl in *.
  - injection Hi as ->.
    destruct (editSession a messageId t now v s) as [v1 s1]; simpl.
    rewrite editSessions_other; [done|].
    intros s' Hs' Heq. apply Hh. rewrite Hid, <- Heq.
    by apply (list_elem_of_fmap_2 ChatSession.id).
  - rewrite editSession_other.
    + by rewrite (IH i Hnodup Hi Hid).
    + intros Heq. apply Hh. rewrite Heq, <- Hid.
      apply (list_elem_of_fmap_2 ChatSession.id).
      by eapply list_elem_of_lookup_2.
Qed.

(** With distinct ids [findIndex] finds the message at its position. *)
Lemma find_message (ms : list ChatMessage.t) (j : nat) (m : ChatMessage.t) :
  NoDup (map ChatMessage.id ms) -> ms !! j = Some m ->
  ChatMessage.id m = messageId ->
  list_find (fun m => ChatMessage.id m = messageId) ms = Some (j, m).
Proof.
  intros Hnodup Hj Hid. apply list_find_Some. repeat split; try done.
  intros j' y Hj' Hlt Hy.
  assert (j' = j); [|lia].
  apply (NoDup_lookup (ChatMessage.id <$> ms) j' j messageId Hnodup);
    rewrite list_lookup_fmap.
  - by rewrite Hj'; simpl; rewrite Hy.
  - by rewrite Hj; simpl; rewrite Hid.
Qed.

(** With distinct ids [messages.map] rewrites the one message found. *)
Lemma rewriteMessages_at (ms : list ChatMessage.t) (j : nat)
  (m : ChatMessage.t) :
  NoDup (map ChatMessage.id ms) -> ms !! j = Some m ->
  ChatMessage.id m = messageId ->
  rewriteMessages messageId t now ms = <[j := withContent m t now]> ms.
Proof.
  intros Hnodup Hj Hid. apply list_eq. intros j'.
  unfold rewriteMessages. change (map ?f ms) with (f <$> ms).
  rewrite list_lookup_fmap.
  destruct (decide (j = j')) as [<-|Hne].
  - rewrite list_lookup_insert_eq by (by eapply lookup_lt_Some).
    by rewrite Hj; simpl; rewrite <- Hid, str_eqb_refl.
  - rewrite list_lookup_insert_ne by done.
    destruct (ms !! j') as [y|] eqn:Hj'; simpl; [|done].
    assert (str_eqb (ChatMessage.id y) messageId = false) as ->; [|done].
    apply str_eqb_neq. intros Hy. apply Hne. symmetry.
    apply (NoDup_lookup (ChatMessage.id <$> ms) j' j messageId Hnodup);
      rewrite list_lookup_fmap.
    + by rewrite Hj'; simpl; rewrite Hy.
    + by rewrite Hj; simpl; rewrite Hid.
Qed.

Lemma take_edited (ms : list ChatMessage.t) (j : nat) (m e : ChatMessage.t) :
  ms !! j = Some m -> take (j + 1) (<[j := e]> ms) = take j ms ++ [e].
Proof.
  intros Hj. replace (j + 1)%nat with (S j) by lia.
  assert (j < length ms)%nat as Hlt by (by eapply lookup_lt_Some).
  rewrite (take_S_r _ _ e) by (by apply list_lookup_insert_eq).
  by rewrite take_insert_ge.
Qed.

(** The callback on the session that holds the message. *)
Lemma editSession_found (s : ChatSession.t) (j : nat) (m : ChatMessage.t) :
  ChatSession.id s = a ->
  NoDup (map ChatMessage.id (ChatSession.messages s)) ->
  ChatSession.messages s !! j = Some m -> ChatMessage.id m = messageId ->
  let regen :=
    negb (str_eqb (ChatMessage.content m) t)
    && bool_decide (ChatMessage.role m = user)
    && bool_decide (j + 1 < length (ChatSession.messages s))%nat in
  let edited := withContent m t now in
  let s' :=
    withMessages s
      (if regen then take j (ChatSession.messages s) ++ [edited]
       else <[j := edited]> (ChatSession.messages s)) now in
  exists prompt,
    editSession a messageId t now editVars0 s
    = ({| requiresRegeneration := regen; userPromptForRegen := prompt;
          sessionAfterUpdate := Some s' |}, s')
    /\ (regen = true -> prompt = t).
Proof.
  intros Hid Hnodup Hj Hm. cbv zeta. unfold editSession.
  rewrite <- Hid, str_eqb_refl, (find_message _ j m Hnodup Hj Hm).
  rewrite (rewriteMessages_at _ j m Hnodup Hj Hm).
  assert ((Z.of_nat j <? Z.of_nat (length (ChatSession.messages s)) - 1)
          = bool_decide (j + 1 < length (ChatSession.messages s))%nat) as ->.
  { case_bool_decide; [apply Z.ltb_lt|apply Z.ltb_ge]; lia. }
  destruct (negb (str_eqb (ChatMessage.content m) t)
            && bool_decide (ChatMessage.role m = user)); simpl.
  - case_bool_decide; simpl.
    + rewrite (take_edited _ j m) by done. by exists t.
    + by exists t.
  - by exists [].
Qed.

End edit.

(** What [handleSaveEdit] does when the message is found in the active
    session, ids being distinct: [regen] tells whether the session is cut
    after the message; [performAICall] is invoked when moreover the updater
    ran inside [setSessions]. *)
Lemma handleSaveEdit_found (eager : bool) (messageId newContent a : jsstring)
  (now : Date)
  (st : AppState) (i j : nat) (s : ChatSession.t) (m : ChatMessage.t) :
  activeSessionId st = Some a -> truthy a = true ->
  NoDup (map ChatSession.id (sessions st)) ->
  sessions st !! i = Some s -> ChatSession.id s = a ->
  NoDup (map ChatMessage.id (ChatSession.messages s)) ->
  ChatSession.messages s !! j = Some m -> ChatMessage.id m = messageId ->
  trim newContent <> [] ->
  let t := trim newContent in
  let regen :=
    negb (str_eqb (ChatMessage.content m) t)
    && bool_decide (ChatMessage.role m = user)
    && bool_decide (j + 1 < length (ChatSession.messages s))%nat in
  let s' :=
    withMessages s
      (if regen then take j (ChatSession.messages s) ++ [withContent m t now]
       else <[j := withContent m t now]> (ChatSession.messages s)) now in
  fst (handleSaveEdit_policy eager messageId newContent now st)
  = toast (toast_success (js "Message updated"))
      (setEditingMessageId None
         (setSessions (fun _ => <[i := s']> (sessions st)) st))
  /\ snd (handleSaveEdit_policy eager messageId newContent now st)
     = (if regen && eager then Some (t, s') else None).
Proof.
  intros Hactive Ha Hnodup Hi Hid Hmsgs Hj Hm Ht. cbv zeta.
  unfold handleSaveEdit_policy, truthyId. rewrite Hactive, Ha.
  rewrite (proj2 (truthy_nonempty _) Ht); simpl.
  rewrite (editSessions_at a messageId (trim newContent) now editVars0
             (sessions st) i s Hnodup Hi Hid).
  destruct (editSession_found a messageId (trim newContent) now s j m
              Hid Hmsgs Hj Hm) as (prompt & -> & Hprompt).
  simpl. split; [done|].
  destruct eager; simpl.
  - destruct (_ && _ && _); simpl; [|done].
    by rewrite Hprompt.
  - by rewrite andb_false_r.
Qed.

(** [performAICall] with and without a credential for the model of the
    session. *)
Lemma performAICall_cases (prompt : jsstring) (session : ChatSession.t)
  (st : AppState) :
  let key :=
    ApiProviderConfig.apiKey
      <$> resolveCredential
            (effectiveSettings session
               (AppSettings.defaultChatSettings (appSettings st)))
            (appSettings st) in
  let st' := fst (performAICall prompt session st) in
  sessions st' = sessions st
  /\ (truthyOpt key = true ->
      backendCalls st' = S (backendCalls st) /\ isLoading st' = true
      /\ exists g, snd (performAICall prompt session st) = Some g
                   /\ g_prompt g = prompt /\ sessionForCall g = session)
  /\ (truthyOpt key = false ->
      snd (performAICall prompt session st) = None
      /\ backendCalls st' = backendCalls st /\ isLoading st' = isLoading st).
Proof.
  unfold performAICall. cbv zeta.
  destruct (ApiProviderConfig.apiKey <$> _) as [key|];
    [destruct (truthy key) eqn:Hkey|]; simpl; rewrite ?Hkey.
  - split; [done|]. split; [|done]. intros _. repeat split. by eexists.
  - by repeat split.
  - by repeat split.
Qed.



(** An edit that is blank after trimming returns at once: the state is the
    one before and [performAICall] is not invoked. *)
Lemma handleSaveEdit_blank (eager : bool) (messageId newContent : jsstring)
  (now : Date) (st : AppState) :
  trim newContent = [] ->
  handleSaveEdit eager messageId newContent now st = (st, None).
Proof.
  intros Hblank. unfold handleSaveEdit, handleSaveEdit_policy.
  destruct (truthyId (activeSessionId st)); [|done].
  by rewrite Hblank.
Qed.

(** C5 (what the code does).  Saving the first message of the sample chat
    with a blank content leaves the state as it is: the message is still
    the first of the chat, whereas [handleDeleteMessage] would remove it.
    No generation is started. *)
Theorem C5_blank_edit_keeps_message :
  (forall eager,
      handleSaveEdit eager (js "m1") (js "   ") 20 Sample.idle
      = (Sample.idle, None))
  /\ ChatSession.messages <$> activeSession Sample.idle
     = Some [Sample.hello; Sample.reply; Sample.again; Sample.reply2]
  /\ ChatSession.messages
       <$> activeSession (handleDeleteMessage (js "m1") 20 Sample.idle)
     = Some [Sample.reply; Sample.again; Sample.reply2].
Proof.
  split; [intros eager; by apply handleSaveEdit_blank|].
  vm_compute. done.
Qed.

(** C6 (as the code has it).  Let a message that is not a user message be
    saved with a content whose trimmed form is not empty, the ids of
    sessions and of messages being distinct.  The handler stamps the
    message with the trimmed content and the time of the edit, in place;
    no message is dropped and [performAICall] is not invoked. *)
Theorem C6_edit_assistant_message (eager : bool)
  (messageId newContent a : jsstring)
  (now : Date) (st : AppState) (i j : nat) (s : ChatSession.t)
  (m : ChatMessage.t) :
  activeSessionId st = Some a -> truthy a = true ->
  NoDup (map ChatSession.id (sessions st)) ->
  sessions st !! i = Some s -> ChatSession.id s = a ->
  NoDup (map ChatMessage.id (ChatSession.messages s)) ->
  ChatSession.messages s !! j = Some m -> ChatMessage.id m = messageId ->
  ChatMessage.role m <> user ->
  trim newContent <> [] ->
  let edited := withContent m (trim newContent) now in
  let s' := withMessages s (<[j := edited]> (ChatSession.messages s)) now in
  let st' := fst (handleSaveEdit_policy eager messageId newContent now st) in
  sessions st' = <[i := s']> (sessions st)
  /\ ChatSession.messages s' !! j = Some edited
  /\ ChatMessage.content edited = trim newContent
  /\ length (ChatSession.messages s') = length (ChatSession.messages s)
  /\ snd (handleSaveEdit_policy eager messageId newContent now st) = None
  /\ handleSaveEdit eager messageId newContent now st = (st', None).
Proof.
  intros Hactive Ha Hnodup Hi Hid Hmsgs Hj Hm Hrole Ht. cbv zeta.
  destruct (handleSaveEdit_found eager messageId newContent a now st i j s m
              Hactive Ha Hnodup Hi Hid Hmsgs Hj Hm Ht) as [Hstate Hcall].
  rewrite (bool_decide_eq_false_2 _ Hrole), andb_false_r in Hstate, Hcall.
  simpl in Hstate, Hcall.
  unfold handleSaveEdit.
  destruct (handleSaveEdit_policy eager messageId newContent now st)
    as [st1 call].
  simpl in *. rewrite Hcall, Hstate. repeat split; try done.
  - apply list_lookup_insert_eq. by eapply lookup_lt_Some.
  - apply length_insert.
Qed.

(** Saving the first reply of the sample chat. *)
Lemma C6_witness :
  sessions (fst (handleSaveEdit_policy true (js "m2") (js "bye") 20
                   Sample.idle))
  = [withMessages Sample.chatA
       [Sample.hello; withContent Sample.reply (js "bye") 20;
        Sample.again; Sample.reply2] 20;
     Sample.chatB].
Proof.
  refine (proj1
    (C6_edit_assistant_message true (js "m2") (js "bye") (js "a") 20
       Sample.idle
       0%nat 1%nat Sample.chatA Sample.reply
       eq_refl eq_refl _ eq_refl eq_refl _ eq_refl eq_refl _ _));
    try (vm_compute; discriminate);
    apply (bool_decide_unpack _); vm_compute; exact I.
Defined.

(** C6 (as the specification has it) fails: the reply of the sample chat is
    an assistant message that reads ["hello"], and after the edit the
    message with its id reads ["bye"]. *)
Lemma C6_counterexample :
  ChatMessage.role Sample.reply = assistant
  /\ ChatMessage.content Sample.reply = js "hello"
  /\ (activeSession
        (fst (handleSaveEdit true (js "m2") (js "bye") 20 Sample.idle))
      ≫= fun s => ChatMessage.content <$> ChatSession.messages s !! 1%nat)
     = Some (js "bye")
  /\ (activeSession
        (fst (handleSaveEdit false (js "m2") (js "bye") 20 Sample.idle))
      ≫= fun s => ChatMessage.content <$> ChatSession.messages s !! 1%nat)
     = Some (js "bye").
Proof. vm_compute. done. Qed.

(** ** Settings of a chat against the global defaults *)

Lemma find_reset (chatId : jsstring) (now : Date) (l : list ChatSession.t) :
  find (fun s => str_eqb (ChatSession.id s) chatId)
       (map (fun s => if str_eqb (ChatSession.id s) chatId
                      then withSettings s None now else s) l)
  = (fun s => withSettings s None now)
      <$> find (fun s => str_eqb (ChatSession.id s) chatId) l.
Proof.
  induction l as [|s l IH]; simpl; [done|].
  destruct (str_eqb (ChatSession.id s) chatId) eqn:Hs; simpl; by rewrite Hs.
Qed.

(** Against the constant [DEFAULT_CHAT_SETTINGS] the modal does what C4
    says: saving settings equal to it leaves the chat on the defaults. *)
Lemma save_factory_defaults (tempSettings : ChatSettings.t) (now : Date)
  (st : AppState) (chatId : jsstring) :
  activeSessionId st = Some chatId -> truthy chatId = true ->
  json_eqb tempSettings DEFAULT_CHAT_SETTINGS = true ->
  isUsingDefaultSettings (handleSaveChanges tempSettings now st) = true.
Proof.
  intros Hactive Hid Heq.
  unfold handleSaveChanges, truthyId. rewrite Hactive, Hid, Heq; simpl.
  destruct (isUsingDefaultSettings st) eqn:Hdef; simpl.
  - unfold isUsingDefaultSettings, activeSession in *. simpl. done.
  - unfold handleReset, truthyId. rewrite Hactive, Hid.
    unfold isUsingDefaultSettings, activeSession; simpl.
    rewrite Hactive; simpl. rewrite find_reset.
    by destruct (find _ (sessions st)).
Qed.

(** C4 (what the code does).  The global default model is GPT-4o and the
    active chat has an override.  Saving settings equal, field by field,
    to the global defaults stores them as the override of the chat, which
    does not report the use of the defaults; the modal compares with the
    constant [DEFAULT_CHAT_SETTINGS], from which the global defaults
    differ. *)
Theorem C4_override_equal_to_global_defaults :
  json_eqb Sample.gpt4o
    (AppSettings.defaultChatSettings (appSettings Sample.customised)) = true
  /\ json_eqb Sample.gpt4o DEFAULT_CHAT_SETTINGS = false
  /\ isUsingDefaultSettings Sample.customised = false
  /\ isUsingDefaultSettings
       (handleSaveChanges Sample.gpt4o 20 Sample.customised) = false
  /\ ChatSession.settings
       <$> activeSession (handleSaveChanges Sample.gpt4o 20 Sample.customised)
     = Some (Some Sample.gpt4o).
Proof. vm_compute. done. Qed.

(** * Further properties of the code *)

(** ** Trimming *)

Lemma trimStart_head (s : jsstring) :
  match trimStart s with
  | c :: _ => isWhiteSpace c = false
  | [] => True
  end.
Proof.
  induction s as [|c s IH]; simpl; [done|].
  destruct (isWhiteSpace c) eqn:Hc; [done|]. exact Hc.
Qed.

Lemma trimStart_fixed (c : N) (s : jsstring) :
  isWhiteSpace c = false -> trimStart (c :: s) = c :: s.
Proof. intros Hc. simpl. by rewrite Hc. Qed.

Lemma trimStart_snoc (s : jsstring) (c : N) :
  isWhiteSpace c = false -> trimStart (s ++ [c]) = trimStart s ++ [c].
Proof.
  intros Hc. induction s as [|x s IH]; simpl; [by rewrite Hc|].
  by destruct (isWhiteSpace x).
Qed.

Lemma trimEnd_cons (c : N) (s : jsstring) :
  isWhiteSpace c = false -> exists r, trimEnd (c :: s) = c :: r.
Proof.
  intros Hc. unfold trimEnd. simpl.
  rewrite trimStart_snoc by done.
  rewrite rev_app_distr. simpl. eauto.
Qed.

(** A trimmed text is empty or starts with a code unit that is not white
    space. *)
Lemma trim_head (s : jsstring) :
  match trim s with
  | c :: _ => isWhiteSpace c = false
  | [] => True
  end.
Proof.
  unfold trim. pose proof (trimStart_head s) as Hhead.
  destruct (trimStart s) as [|c r]; [done|].
  by destruct (trimEnd_cons c r Hhead) as [r' ->].
Qed.

Lemma trimStart_idempotent (s : jsstring) : trimStart (trimStart s) = trimStart s.
Proof.
  pose proof (trimStart_head s) as Hhead.
  destruct (trimStart s) as [|c r]; [done|]. by apply trimStart_fixed.
Qed.

Lemma trim_idempotent (s : jsstring) : trim (trim s) = trim s.
Proof.
  pose proof (trim_head s) as Hhead.
  destruct (trim s) as [|c r] eqn:Htrim; [done|].
  unfold trim in *. rewrite trimStart_fixed by done.
  rewrite <- Htrim. unfold trimEnd.
  by rewrite rev_involutive, trimStart_idempotent.
Qed.

(** ** The title of a first message *)

(** X1.  [handleSubmit] derives the title from the trimmed input, which is
    not blank: the words joined are never empty, so the fallback ["Chat"]
    of [updateSessionTitleIfNeeded] is not taken there, and the title is
    the joined words or their first 32 code units followed by ["..."]; it
    starts with the first code unit of the trimmed input. *)
Theorem title_of_trimmed_input (textToSend : jsstring) :
  trim textToSend <> [] ->
  let content := trim textToSend in
  titleWords content <> []
  /\ deriveTitle content
     = (if (35 <? length (titleWords content))%nat
        then take 32 (titleWords content) ++ js "..."
        else titleWords content)
  /\ head (deriveTitle content) = head content.
Proof.
  intros Hne. cbv zeta.
  pose proof (trim_head textToSend) as Hhead.
  destruct (trim textToSend) as [|c r] eqn:Htrim; [done|].
  assert (exists p rest, split_ws (c :: r) = (c :: p) :: rest)
    as (p & rest & Hsplit).
  { unfold split_ws. simpl. rewrite Hhead.
    assert (forall acc s, exists p rest,
               split_ws_from (acc ++ [c]) false s = (c :: p) :: rest) as Hgen.
    { intros acc s. revert acc. induction s as [|x s IH]; intros acc; simpl.
      - exists (rev acc), []. by rewrite rev_app_distr.
      - destruct (isWhiteSpace x).
        + exists (rev acc), (split_ws_from [] true s).
          by rewrite rev_app_distr.
        + apply (IH (x :: acc)). }
    apply (Hgen [] r). }
  assert (exists w, titleWords (c :: r) = c :: w) as [w Hw].
  { unfold titleWords. rewrite Hsplit.
    change (take 5 ((c :: p) :: rest)) with ((c :: p) :: take 4 rest).
    destruct (take 4 rest); simpl; eauto. }
  rewrite Hw. split; [done|].
  unfold deriveTitle. rewrite Hw. split.
  - destruct (35 <? length (c :: w))%nat; [|done].
    by destruct (take 32 (c :: w)).
  - destruct (35 <? length (c :: w))%nat eqn:Hlong; simpl; [|done].
    done.
Qed.

Lemma title_of_trimmed_input_witness :
  head (deriveTitle (trim (js "  what is a monad?  "))) = Some 119%N.
Proof.
  refine (eq_trans
            (proj2 (proj2 (title_of_trimmed_input (js "  what is a monad?  ") _)))
            _); vm_compute; [discriminate | reflexivity].
Defined.

(** ** The table of models *)

Lemma table_resolves (key : jsstring) (p : Provider) (m : ModelInfo) :
  (key, p) ∈ MODEL_PROVIDERS -> m ∈ p_models p ->
  getProviderIdFromModel (mi_id m) = Some key
  /\ lookupProvider key = Some p.
Proof.
  intros Hp Hm. unfold MODEL_PROVIDERS in Hp.
  repeat (apply elem_of_cons in Hp as [Hp|Hp];
          [injection Hp as -> ->; simpl in Hm;
           repeat (apply elem_of_cons in Hm as [->|Hm]; [by vm_compute|]);
           by apply elem_of_nil in Hm|]).
  by apply elem_of_nil in Hp.
Qed.

(** X2.  Every model listed in [MODEL_PROVIDERS] is found by its id and
    resolves to the key under which its provider is filed; so the key the
    dialogs store as [providerId] is the one [performAICall] looks for. *)
Theorem model_resolves_to_its_provider (key : jsstring) (p : Provider)
  (m : ModelInfo) :
  (key, p) ∈ MODEL_PROVIDERS -> m ∈ p_models p ->
  getProviderIdFromModel (mi_id m) = Some key
  /\ lookupProvider key = Some p.
Proof. apply table_resolves. Qed.

Lemma model_resolves_to_its_provider_witness :
  getProviderIdFromModel (js "llama3-70b-8192") = Some (js "groq").
Proof.
  refine (proj1 (model_resolves_to_its_provider (js "groq") _
                   {| mi_id := js "llama3-70b-8192"; mi_name := js "LLaMA3-70b" |}
                   _ _)).
  - do 2 apply list_elem_of_further. apply list_elem_of_here.
  - simpl. apply list_elem_of_further, list_elem_of_here.
Defined.

(** ** Sending a message *)

Lemma performAICall_frame (prompt : jsstring) (session : ChatSession.t)
  (st : AppState) :
  let st' := fst (performAICall prompt session st) in
  sessions st' = sessions st /\ activeSessionId st' = activeSessionId st.
Proof.
  unfold performAICall.
  by destruct (ApiProviderConfig.apiKey <$> _) as [key|];
    [destruct (truthy key)|].
Qed.

Lemma ids_appendTo (sid : jsstring) (m : ChatMessage.t) (now : Date)
  (l : list ChatSession.t) :
  map ChatSession.id (appendTo sid m now l) = map ChatSession.id l.
Proof.
  unfold appendTo. rewrite map_map. apply map_ext.
  intros s. by destruct (str_eqb _ _).
Qed.

Lemma ids_addMessage (m : ChatMessage.t) (sid : jsstring) (now : Date)
  (st : AppState) :
  map ChatSession.id (sessions (addMessageToActiveSession m sid now st))
  = map ChatSession.id (sessions st).
Proof.
  unfold addMessageToActiveSession.
  destruct (truthy sid); simpl; [apply ids_appendTo|done].
Qed.

Lemma ids_updateTitle (sid c : jsstring) (now : Date) (st : AppState) :
  map ChatSession.id (sessions (updateSessionTitleIfNeeded sid c now st))
  = map ChatSession.id (sessions st).
Proof.
  unfold updateSessionTitleIfNeeded; simpl. rewrite map_map. apply map_ext.
  intros s. by destruct (needsTitle sid s).
Qed.

Lemma submitTo_frame (t mid : jsstring) (now : Date) (s : ChatSession.t)
  (cur : jsstring) (first : bool) (st : AppState) :
  let st' := fst (submitTo t mid now s cur first st) in
  map ChatSession.id (sessions st') = map ChatSession.id (sessions st)
  /\ activeSessionId st' = activeSessionId st.
Proof.
  cbv zeta. unfold submitTo. destruct (truthy cur); [|done].
  cbn [negb].
  set (st1 := addMessageToActiveSession (userMessage mid t now) cur now st).
  set (st2 := if first then updateSessionTitleIfNeeded cur t now st1 else st1).
  destruct (performAICall_frame t s (setInput [] st2)) as [Hs Ha].
  cbv zeta in Hs, Ha. rewrite Hs, Ha.
  change (sessions (setInput [] st2)) with (sessions st2).
  change (activeSessionId (setInput [] st2)) with (activeSessionId st2).
  assert (map ChatSession.id (sessions st2) = map ChatSession.id (sessions st1)
          /\ activeSessionId st2 = activeSessionId st1) as [-> ->].
  { subst st2. destruct first; [|done]. by rewrite ids_updateTitle. }
  subst st1. rewrite ids_addMessage. split; [done|]. apply addMessage_frame.
Qed.

Lemma handleSubmit_ids (e : option jsstring) (sid mid : jsstring) (now : Date)
  (st : AppState) :
  let st' := fst (handleSubmit e sid mid now st) in
  (forall a, truthyId (activeSessionId st) = Some a ->
     map ChatSession.id (sessions st') = map ChatSession.id (sessions st)
     /\ activeSessionId st' = activeSessionId st)
  /\ (truthyId (activeSessionId st) = None ->
      (map ChatSession.id (sessions st') = map ChatSession.id (sessions st)
       /\ activeSessionId st' = activeSessionId st)
      \/ (isLoading st = false /\ trim (default (input st) e) <> []
          /\ map ChatSession.id (sessions st')
             = sid :: map ChatSession.id (sessions st)
          /\ activeSessionId st' = Some sid)).
Proof.
  unfold handleSubmit.
  destruct (truthy (trim (default (input st) e))) eqn:Hinput; simpl;
    [|split; [done|by left]].
  destruct (isLoading st) eqn:Hload; simpl; [split; [done|by left]|].
  split.
  - intros a ->. unfold findSession.
    destruct (find _ (sessions st)); [apply submitTo_frame|done].
  - intros ->. right.
    split; [done|]. split; [by apply truthy_nonempty|].
    destruct (submitTo_frame (trim (default (input st) e)) mid now
                (newSession sid now) sid true
                (setActiveSessionId (Some sid)
                   (setSessions (cons (newSession sid now)) st)))
      as [Hids Hactive].
    by rewrite Hids, Hactive.
Qed.

(** X3.  [handleSubmit] does not add a session when one is selected: the
    ids of the collection and the selection are as before, also when the
    selected session is empty.  Without a selection, a prompt that is not
    blank, sent while nothing is loading, puts one new session at the head
    of the collection and selects it. *)
Theorem submit_reuses_selected_session (e : option jsstring)
  (sid mid : jsstring) (now : Date) (st : AppState) :
  let st' := fst (handleSubmit e sid mid now st) in
  (forall a, activeSessionId st = Some a -> truthy a = true ->
     map ChatSession.id (sessions st') = map ChatSession.id (sessions st)
     /\ activeSessionId st' = activeSessionId st)
  /\ (activeSessionId st = None -> isLoading st = false ->
      trim (default (input st) e) <> [] ->
      map ChatSession.id (sessions st')
      = sid :: map ChatSession.id (sessions st)
      /\ activeSessionId st' = Some sid).
Proof.
  cbv zeta. destruct (handleSubmit_ids e sid mid now st) as [Hsel Hnone].
  split.
  - intros a Ha Htruthy. apply (Hsel a). unfold truthyId. by rewrite Ha, Htruthy.
  - intros Ha Hload Hinput.
    unfold handleSubmit in *. unfold truthyId in *. rewrite Ha in *.
    rewrite (proj2 (truthy_nonempty _) Hinput), Hload in *. simpl in *.
    destruct (Hnone eq_refl) as [[Hids _]|(_ & _ & Hids & Hactive)]; [|done].
    destruct (submitTo_frame (trim (default (input st) e)) mid now
                (newSession sid now) sid true
                (setActiveSessionId (Some sid)
                   (setSessions (cons (newSession sid now)) st)))
      as [Hids' Hactive'].
    by rewrite Hids', Hactive'.
Qed.

Lemma submit_reuses_selected_session_witness :
  map ChatSession.id
    (sessions (fst (handleSubmit (Some (js "hello")) (js "n") (js "m9") 30
                      (handleSelectChat (js "b") Sample.ready))))
  = [js "a"; js "b"].
Proof.
  refine (proj1 (proj1 (submit_reuses_selected_session (Some (js "hello"))
                          (js "n") (js "m9") 30
                          (handleSelectChat (js "b") Sample.ready))
                   (js "b") eq_refl eq_refl)).
Defined.

Lemma id_absent_find (a : jsstring) (l : list ChatSession.t) :
  a ∉ map ChatSession.id l ->
  find (fun x => str_eqb (ChatSession.id x) a) l = None.
Proof.
  induction l as [|h l IH]; intros Hnot; simpl; [done|].
  assert (str_eqb (ChatSession.id h) a = false) as ->.
  { apply str_eqb_neq. intros Heq. apply Hnot. rewrite <- Heq. by left. }
  apply IH. intros Hin. apply Hnot. by right.
Qed.

(** With distinct ids [sessions.find(s => s.id === id)] is the session
    that has the id. *)
Lemma find_session_at (l : list ChatSession.t) (i : nat) (s : ChatSession.t) :
  NoDup (map ChatSession.id l) -> l !! i = Some s ->
  find (fun x => str_eqb (ChatSession.id x) (ChatSession.id s)) l = Some s.
Proof.
  revert i. induction l as [|h l IH]; intros i Hnodup Hi; [done|].
  simpl in Hnodup.
  pose proof (NoDup_cons_1_1 _ _ Hnodup) as Hh.
  apply NoDup_cons_1_2 in Hnodup.
  destruct i as [|i]; simpl in *.
  - injection Hi as ->. by rewrite str_eqb_refl.
  - assert (str_eqb (ChatSession.id h) (ChatSession.id s) = false) as ->.
    { apply str_eqb_neq. intros Heq. apply Hh. rewrite Heq.
      apply (list_elem_of_fmap_2 ChatSession.id).
      by eapply list_elem_of_lookup_2. }
    by apply (IH i).
Qed.

(** A generation just started: its signal is the newest of the heap and
    has not fired. *)
Lemma performAICall_started (prompt : jsstring) (session : ChatSession.t)
  (st st1 : AppState) (g : Generation) :
  performAICall prompt session st = (st1, Some g) ->
  aborted (signal g) st1 = false /\ truthy (g_apiKey g) = true
  /\ sessionForCall g = session /\ g_prompt g = prompt
  /\ sessions st1 = sessions st /\ isLoading st1 = true
  /\ abortControllerRef st1 = Some (signal g)
  /\ toasts st1 = toasts st.
Proof.
  unfold performAICall.
  destruct (ApiProviderConfig.apiKey <$> _) as [key|];
    [destruct (truthy key) eqn:Hkey|]; intros [= <- <-]; simpl.
  repeat split; try done.
  unfold aborted; simpl. by rewrite lookup_app_r, Nat.sub_diag.
Qed.

(** The sessions when a generation that was not aborted is settled. *)
Lemma settle_reply_lookup (g : Generation) (variation newId : jsstring)
  (now : Date) (st : AppState) (i : nat) (s : ChatSession.t) :
  truthy (g_apiKey g) = true -> aborted (signal g) st = false ->
  truthy (ChatSession.id (sessionForCall g)) = true ->
  sessions st !! i = Some s ->
  ChatSession.id s = ChatSession.id (sessionForCall g) ->
  exists text,
    sessions (performAICall_settle g variation newId now st) !! i
    = Some (withMessages s
              (ChatSession.messages s ++ [assistantMessage newId text now]) now).
Proof.
  intros Hkey Hab Hsid Hi Hid.
  destruct (settle_live g variation newId now st Hkey Hab) as [text ->].
  exists text. by apply appended_lookup.
Qed.

Lemma submitTo_lookup (t mid : jsstring) (now : Date) (s0 s : ChatSession.t)
  (first : bool) (st : AppState) (i : nat) :
  truthy (ChatSession.id s) = true -> sessions st !! i = Some s ->
  exists s',
    sessions (fst (submitTo t mid now s0 (ChatSession.id s) first st)) !! i
    = Some s'
    /\ ChatSession.id s' = ChatSession.id s
    /\ ChatSession.messages s'
       = ChatSession.messages s ++ [userMessage mid t now].
Proof.
  intros Hid Hi. unfold submitTo. rewrite Hid. cbn [negb].
  set (st1 := addMessageToActiveSession (userMessage mid t now)
                (ChatSession.id s) now st).
  set (st2 := if first
              then updateSessionTitleIfNeeded (ChatSession.id s) t now st1
              else st1).
  rewrite (proj1 (performAICall_frame t s0 (setInput [] st2))).
  change (sessions (setInput [] st2)) with (sessions st2).
  assert (sessions st1 !! i
          = Some (withMessages s
                    (ChatSession.messages s ++ [userMessage mid t now]) now))
    as Hst1.
  { subst st1. rewrite addMessage_sessions_truthy by done.
    rewrite (appendTo_lookup _ _ _ _ _ _ Hi). by rewrite str_eqb_refl. }
  subst st2. destruct first; [|eauto].
  unfold updateSessionTitleIfNeeded; simpl.
  change (map ?f (sessions st1)) with (f <$> sessions st1).
  rewrite list_lookup_fmap, Hst1; simpl.
  destruct (needsTitle _ _); eauto.
Qed.

(** X4.  A prompt sent into the selected session, ids being distinct, gives
    the generation the session as it was before the prompt was appended;
    yet, when the backend call is settled with nothing else in between, the
    session holds its former messages, then the prompt, then the reply:
    both are addressed to the session by id. *)
Theorem submit_then_reply (e : option jsstring) (sid mid a : jsstring)
  (now : Date) (st st1 : AppState) (g : Generation) (i : nat)
  (s : ChatSession.t) :
  activeSessionId st = Some a -> truthy a = true ->
  NoDup (map ChatSession.id (sessions st)) ->
  sessions st !! i = Some s -> ChatSession.id s = a ->
  handleSubmit e sid mid now st = (st1, Some g) ->
  let prompt := trim (default (input st) e) in
  sessionForCall g = s /\ g_prompt g = prompt /\ prompt <> []
  /\ forall (variation newId : jsstring) (now2 : Date),
       exists text s',
         sessions (performAICall_settle g variation newId now2 st1) !! i
         = Some s'
         /\ ChatSession.messages s'
            = ChatSession.messages s
              ++ [userMessage mid prompt now; assistantMessage newId text now2].
Proof.
  intros Hactive Ha Hnodup Hi Hid Hsubmit. cbv zeta.
  unfold handleSubmit in Hsubmit. unfold truthyId in Hsubmit.
  rewrite Hactive, Ha in Hsubmit.
  destruct (truthy (trim (default (input st) e))) eqn:Hinput;
    simpl in Hsubmit; [|done].
  destruct (isLoading st); simpl in Hsubmit; [done|].
  unfold findSession in Hsubmit. rewrite <- Hid in Hsubmit.
  rewrite (find_session_at _ i s Hnodup Hi) in Hsubmit.
  destruct (submitTo_lookup (trim (default (input st) e)) mid now s s
              (bool_decide (ChatSession.messages s = [])) st i)
    as (s1 & Hs1 & Hid1 & Hm1); [by rewrite Hid|done|].
  rewrite Hsubmit in Hs1. simpl in Hs1.
  unfold submitTo in Hsubmit. rewrite Hid, Ha in Hsubmit. cbn [negb] in Hsubmit.
  apply performAICall_started in Hsubmit
    as (Hab & Hkey & Hsession & Hprompt & _).
  repeat split; [done..|by apply truthy_nonempty|].
  intros variation newId now2.
  destruct (settle_reply_lookup g variation newId now2 st1 i s1)
    as [text Hsettle]; try done.
  - by rewrite Hsession, Hid.
  - by rewrite Hsession.
  - exists text. eexists. split; [exact Hsettle|].
    simpl. by rewrite Hm1, <- app_assoc.
Qed.

Lemma submit_then_reply_witness :
  exists text s',
    sessions
      (performAICall_settle
         {| g_prompt := js "next"; sessionForCall := Sample.chatA;
            settingsToUse := DEFAULT_CHAT_SETTINGS; g_apiKey := js "sk-test";
            g_baseUrl := None; signal := 0 |}
         [] (js "m6") 31
         (fst (handleSubmit (Some (js " next ")) (js "n") (js "m5") 30
                 Sample.ready))) !! 0%nat
    = Some s'
    /\ ChatSession.messages s'
       = ChatSession.messages Sample.chatA
         ++ [userMessage (js "m5") (js "next") 30;
             assistantMessage (js "m6") text 31].
Proof.
  refine (proj2 (proj2 (proj2
    (submit_then_reply (Some (js " next ")) (js "n") (js "m5") (js "a") 30
       Sample.ready _ _ 0%nat Sample.chatA eq_refl eq_refl _ eq_refl eq_refl
       eq_refl))) [] (js "m6") 31).
  apply (bool_decide_unpack _); vm_compute; exact I.
Defined.

(** ** Regenerating *)

Lemma lastUserMessage_spec (ms : list ChatMessage.t) (m : ChatMessage.t) :
  lastUserMessage ms = Some m ->
  exists j, ms !! j = Some m /\ ChatMessage.role m = user
            /\ forall k m', (j < k)%nat -> ms !! k = Some m' ->
                            ChatMessage.role m' <> user.
Proof.
  unfold lastUserMessage.
  induction ms as [|x l IH] using rev_ind; [done|].
  rewrite rev_app_distr. simpl. case_bool_decide as Hx.
  - intros [= <-]. exists (length l). split; [|split; [done|]].
    + by rewrite lookup_app_r, Nat.sub_diag.
    + intros k m' Hk Hm'. apply lookup_lt_Some in Hm'.
      rewrite length_app in Hm'. simpl in Hm'. lia.
  - intros Hfind. destruct (IH Hfind) as (j & Hj & Hrole & Hafter).
    exists j. split; [by apply lookup_app_l_Some|]. split; [done|].
    intros k m' Hk Hm'.
    destruct (decide (k < length l)%nat) as [Hlt|Hge].
    + rewrite lookup_app_l in Hm' by done. by eapply Hafter.
    + rewrite lookup_app_r in Hm' by lia.
      destruct (k - length l)%nat; [|done]. by injection Hm' as <-.
Qed.

Lemma lastUserMessage_none (ms : list ChatMessage.t) :
  lastUserMessage ms = None <->
  forall m, m ∈ ms -> ChatMessage.role m <> user.
Proof.
  unfold lastUserMessage. split.
  - intros Hnone m Hm Hrole.
    apply list_elem_of_In, in_rev in Hm.
    eapply find_none in Hnone; [|exact Hm]. simpl in Hnone.
    by rewrite bool_decide_eq_true_2 in Hnone.
  - intros Hall. destruct (find _ (rev ms)) as [m|] eqn:Hfind; [|done].
    apply find_some in Hfind as [Hin Hrole].
    apply bool_decide_eq_true in Hrole.
    exfalso. apply (Hall m); [|done].
    by apply list_elem_of_In, in_rev.
Qed.

(** X5.  [handleRegenerate] on the selected session, ids being distinct,
    when it starts a generation: the prompt is the content of the last
    user message of the session, the generation is given the session as it
    was, and nothing is removed: once the backend call is settled with
    nothing else in between, the session holds its former messages (the
    former reply among them), then the indicator
    ["Regenerating response..."], then the new reply. *)
Theorem regenerate_keeps_history (indicatorId a : jsstring) (now : Date)
  (st st1 : AppState) (g : Generation) (i : nat) (s : ChatSession.t) :
  activeSessionId st = Some a -> truthy a = true ->
  NoDup (map ChatSession.id (sessions st)) ->
  sessions st !! i = Some s -> ChatSession.id s = a ->
  handleRegenerate indicatorId now st = (st1, Some g) ->
  (exists j m,
      ChatSession.messages s !! j = Some m /\ ChatMessage.role m = user
      /\ (forall k m', (j < k)%nat -> ChatSession.messages s !! k = Some m' ->
                       ChatMessage.role m' <> user)
      /\ g_prompt g = ChatMessage.content m)
  /\ sessionForCall g = s
  /\ forall (variation newId : jsstring) (now2 : Date),
       exists text s',
         sessions (performAICall_settle g variation newId now2 st1) !! i
         = Some s'
         /\ ChatSession.messages s'
            = ChatSession.messages s
              ++ [errorMessage indicatorId (js "Regenerating response...") now;
                  assistantMessage newId text now2].
Proof.
  intros Hactive Ha Hnodup Hi Hid Hregen.
  unfold handleRegenerate, truthyId in Hregen. rewrite Hactive, Ha in Hregen.
  destruct (isLoading st); [done|].
  unfold findSession in Hregen. rewrite <- Hid in Hregen.
  rewrite (find_session_at _ i s Hnodup Hi) in Hregen.
  destruct (lastUserMessage (ChatSession.messages s)) as [m|] eqn:Hlast; [|done].
  pose proof Hregen as Hstarted.
  apply performAICall_started in Hstarted
    as (Hab & Hkey & Hsession & Hprompt & Hsessions & _).
  split; [|split; [done|]].
  - destruct (lastUserMessage_spec _ _ Hlast) as (j & Hj & Hrole & Hafter).
    exists j, m. by repeat split.
  - intros variation newId now2.
    assert (sessions st1 !! i
            = Some (withMessages s
                      (ChatSession.messages s
                       ++ [regeneratingIndicator indicatorId now]) now))
      as Hst1.
    { rewrite Hsessions, addMessage_sessions_truthy by (by rewrite Hid).
      rewrite (appendTo_lookup _ _ _ _ _ _ Hi). by rewrite str_eqb_refl. }
    assert (truthy (ChatSession.id (sessionForCall g)) = true) as Htruthy
      by (by rewrite Hsession, Hid).
    destruct (settle_reply_lookup g variation newId now2 st1 i _
                Hkey Hab Htruthy Hst1) as [text Hsettle].
    + by rewrite Hsession.
    + exists text. eexists. split; [exact Hsettle|].
      simpl. unfold regeneratingIndicator. by rewrite <- app_assoc.
Qed.

Lemma regenerate_keeps_history_witness :
  exists text s',
    sessions
      (performAICall_settle
         {| g_prompt := js "more"; sessionForCall := Sample.chatA;
            settingsToUse := DEFAULT_CHAT_SETTINGS; g_apiKey := js "sk-test";
            g_baseUrl := None; signal := 0 |}
         [] (js "m6") 31
         (fst (handleRegenerate (js "m5") 30 Sample.ready))) !! 0%nat
    = Some s'
    /\ ChatSession.messages s'
       = ChatSession.messages Sample.chatA
         ++ [errorMessage (js "m5") (js "Regenerating response...") 30;
             assistantMessage (js "m6") text 31].
Proof.
  refine (proj2 (proj2
    (regenerate_keeps_history (js "m5") (js "a") 30 Sample.ready _ _ 0%nat
       Sample.chatA eq_refl eq_refl _ eq_refl eq_refl eq_refl))
    [] (js "m6") 31).
  apply (bool_decide_unpack _); vm_compute; exact I.
Defined.

(** X6.  [handleRegenerate] does nothing while a generation is loading or
    without a selection; and in a selected session without any user
    message it only notifies the error: no indicator is appended and the
    backend is not called. *)
Theorem regenerate_guards (indicatorId : jsstring) (now : Date)
  (st : AppState) :
  (isLoading st = true \/ truthyId (activeSessionId st) = None ->
   handleRegenerate indicatorId now st = (st, None))
  /\ (forall a i s,
        activeSessionId st = Some a -> truthy a = true ->
        isLoading st = false ->
        NoDup (map ChatSession.id (sessions st)) ->
        sessions st !! i = Some s -> ChatSession.id s = a ->
        (forall m, m ∈ ChatSession.messages s -> ChatMessage.role m <> user) ->
        handleRegenerate indicatorId now st
        = (toast (toast_error
                    (js "Cannot regenerate: No previous user message found."))
             st, None)).
Proof.
  split.
  - intros [Hload|Hnone]; unfold handleRegenerate.
    + destruct (truthyId (activeSessionId st)); [|done]. by rewrite Hload.
    + by rewrite Hnone.
  - intros a i s Hactive Ha Hload Hnodup Hi Hid Hnouser.
    unfold handleRegenerate, truthyId. rewrite Hactive, Ha, Hload.
    unfold findSession. rewrite <- Hid.
    rewrite (find_session_at _ i s Hnodup Hi).
    by rewrite (proj2 (lastUserMessage_none _) Hnouser).
Qed.

Lemma regenerate_guards_witness :
  handleRegenerate (js "m5") 30 Sample.generating = (Sample.generating, None)
  /\ handleRegenerate (js "m5") 30 (handleSelectChat (js "b") Sample.ready)
     = (toast (toast_error
                 (js "Cannot regenerate: No previous user message found."))
          (handleSelectChat (js "b") Sample.ready), None).
Proof.
  split.
  - apply (proj1 (regenerate_guards (js "m5") 30 Sample.generating)).
    by left.
  - apply (proj2 (regenerate_guards (js "m5") 30
                    (handleSelectChat (js "b") Sample.ready))
             (js "b") 1%nat Sample.chatB); try reflexivity.
    + apply (bool_decide_unpack _); vm_compute; exact I.
    + intros m Hm. by apply elem_of_nil in Hm.
Defined.

(** ** After a generation that did not succeed *)

Lemma aborted_true_addMessage (k : nat) (m : ChatMessage.t) (sid : jsstring)
  (now : Date) (st : AppState) :
  aborted k (addMessageToActiveSession m sid now st) = aborted k st.
Proof.
  unfold aborted. by rewrite (proj1 (addMessage_frame m sid now st)).
Qed.

Lemma resume_threw (g : Generation) (e : JsError) (newId : jsstring)
  (now : Date) (st : AppState) :
  exists content,
    sessions (performAICall_resume g (Threw e) newId now st)
    = sessions (addMessageToActiveSession (errorMessage newId content now)
                  (ChatSession.id (sessionForCall g)) now st)
    /\ isLoading (performAICall_resume g (Threw e) newId now st)
       = (if aborted (signal g) st then isLoading st else false).
Proof.
  unfold performAICall_resume, performAICall_body.
  rewrite (proj1 (finally_frame g _)).
  destruct (str_eqb (e_name e) (js "AbortError")).
  - exists (js "Generation stopped."). split; [done|].
    unfold performAICall_finally. rewrite aborted_true_addMessage.
    destruct (aborted (signal g) st); [|done]. simpl.
    apply addMessage_frame.
  - exists (js "Error: " ++ e_message e). split; [done|].
    unfold performAICall_finally.
    assert (aborted (signal g)
              (toast (toast_error (js "AI Error: " ++ e_message e))
                 (addMessageToActiveSession
                    (errorMessage newId (js "Error: " ++ e_message e) now)
                    (ChatSession.id (sessionForCall g)) now st))
            = aborted (signal g) st) as ->.
    { unfold aborted; simpl. by rewrite (proj1 (addMessage_frame _ _ _ _)). }
    destruct (aborted (signal g) st); [|done]. simpl.
    apply addMessage_frame.
Qed.

(** X7.  When the backend call of a generation fails or is aborted, the
    message appended to its session is flagged as an error and is the last
    one; [showRegenerate] is then false for every message of the session:
    the regenerate action is offered on no message. *)
Theorem failure_hides_regenerate (g : Generation) (e : JsError)
  (newId : jsstring) (now : Date) (st : AppState) (i : nat)
  (s : ChatSession.t) :
  truthy (ChatSession.id (sessionForCall g)) = true ->
  sessions st !! i = Some s ->
  ChatSession.id s = ChatSession.id (sessionForCall g) ->
  let st' := performAICall_resume g (Threw e) newId now st in
  exists s' m,
    sessions st' !! i = Some s'
    /\ ChatSession.messages s' = ChatSession.messages s ++ [m]
    /\ ChatMessage.isError m = Some true
    /\ forall k msg, ChatSession.messages s' !! k = Some msg ->
                     showRegenerate st' s' k msg = false.
Proof.
  intros Hsid Hi Hid. cbv zeta.
  destruct (resume_threw g e newId now st) as (content & Hsessions & _).
  exists (withMessages s
            (ChatSession.messages s ++ [errorMessage newId content now]) now),
         (errorMessage newId content now).
  split.
  { rewrite Hsessions, addMessage_sessions_truthy by done.
    rewrite (appendTo_lookup _ _ _ _ _ _ Hi). by rewrite Hid, str_eqb_refl. }
  split; [done|]. split; [done|].
  intros k msg Hk. unfold showRegenerate. simpl in *.
  destruct (decide (k = length (ChatSession.messages s))) as [->|Hne].
  - rewrite lookup_app_r, Nat.sub_diag in Hk by done.
    injection Hk as <-. reflexivity.
  - assert ((Z.of_nat k
             =? Z.of_nat (length (ChatSession.messages s
                                  ++ [errorMessage newId content now])) - 1)
            = false) as ->.
    { apply Z.eqb_neq. rewrite length_app. simpl. lia. }
    by rewrite andb_false_r.
Qed.

Lemma failure_hides_regenerate_witness :
  exists s' m,
    sessions (performAICall_resume Sample.inFlight
                (Threw (Error (js "timeout"))) (js "m5") 14
                Sample.generating) !! 0%nat = Some s'
    /\ ChatSession.messages s' = ChatSession.messages Sample.chatA ++ [m]
    /\ ChatMessage.isError m = Some true
    /\ forall k msg, ChatSession.messages s' !! k = Some msg ->
         showRegenerate
           (performAICall_resume Sample.inFlight
              (Threw (Error (js "timeout"))) (js "m5") 14 Sample.generating)
           s' k msg = false.
Proof.
  exact (failure_hides_regenerate Sample.inFlight (Error (js "timeout"))
           (js "m5") 14 Sample.generating 0%nat Sample.chatA
           eq_refl eq_refl eq_refl).
Defined.

(** X8.  Stopping a generation with the stop button never clears the
    loading flag: [handleStopGenerating] only aborts, and the [finally] of
    [performAICall] clears the flag only when the signal did not fire.
    After the stopped generation is settled the state is still loading
    with no controller left, so [handleSubmit] and [handleRegenerate]
    ignore every request and [handleSelectChat] leaves the flag set. *)
Theorem stop_leaves_loading (g : Generation) (variation newId : jsstring)
  (now : Date) (st : AppState) :
  isLoading st = true ->
  abortControllerRef st = Some (signal g) ->
  (signal g < length (signals st))%nat ->
  truthy (g_apiKey g) = true ->
  let st' := performAICall_settle g variation newId now
               (handleStopGenerating st) in
  isLoading st' = true
  /\ abortControllerRef st' = None
  /\ (forall e sid mid now', handleSubmit e sid mid now' st' = (st', None))
  /\ (forall iid now', handleRegenerate iid now' st' = (st', None))
  /\ (forall id, isLoading (handleSelectChat id st') = true)
  /\ handleStopGenerating st' = st'.
Proof.
  intros Hload Href Hk Hkey. cbv zeta.
  assert (handleStopGenerating st = abort (signal g) st) as Hstop
    by (unfold handleStopGenerating; by rewrite Hload, Href).
  assert (aborted (signal g) (handleStopGenerating st) = true) as Hab
    by (rewrite Hstop; by apply aborted_abort).
  rewrite (settle_aborted g variation newId now _ Hkey Hab).
  set (st2 := addMessageToActiveSession _ _ _ _).
  assert (isLoading st2 = true /\ aborted (signal g) st2 = true) as [Hl2 Hab2].
  { subst st2. rewrite aborted_true_addMessage.
    split; [|done].
    rewrite (proj1 (proj2 (proj2 (addMessage_frame _ _ _ _)))).
    by rewrite Hstop. }
  assert (isLoading (performAICall_finally g st2) = true) as Hl.
  { unfold performAICall_finally. by rewrite Hab2. }
  assert (abortControllerRef (performAICall_finally g st2) = None) as Hr
    by apply finally_frame.
  repeat split; try done.
  - intros e sid mid now'. unfold handleSubmit.
    by rewrite Hl, orb_true_r.
  - intros iid now'. unfold handleRegenerate.
    destruct (truthyId _); [|done]. by rewrite Hl.
  - intros id. unfold handleSelectChat. by rewrite Hl, Hr.
  - unfold handleStopGenerating. by rewrite Hl, Hr.
Qed.

Lemma stop_leaves_loading_witness :
  isLoading (performAICall_settle Sample.inFlight [] (js "m5") 14
               (handleStopGenerating Sample.generating)) = true.
Proof.
  apply (stop_leaves_loading Sample.inFlight [] (js "m5") 14 Sample.generating);
    [reflexivity | reflexivity | vm_compute; lia | reflexivity].
Defined.

(** ** A reply for a deleted chat *)

Lemma confirm_delete_sessions (seen : list ChatSession.t) (id : jsstring)
  (st : AppState) :
  sessions (handleConfirmClick (handleDeleteChat seen id st))
  = List.filter (fun s => negb (str_eqb (ChatSession.id s) id)) (sessions st).
Proof.
  unfold handleConfirmClick, handleDeleteChat, runDeleteChat; simpl.
  by case_bool_decide; [destruct (isLoading st), (abortControllerRef st)|].
Qed.

Lemma addMessage_absent (m : ChatMessage.t) (sid : jsstring) (now : Date)
  (st : AppState) :
  (forall s, s ∈ sessions st -> ChatSession.id s <> sid) ->
  sessions (addMessageToActiveSession m sid now st) = sessions st.
Proof.
  intros Habsent. unfold addMessageToActiveSession.
  destruct (truthy sid); simpl; [|done].
  by apply (map_other_id (fun s => withMessages s _ now)).
Qed.

(** X9.  When the chat of a generation in flight is deleted, whatever the
    backend call then gives (a text, an abort, an error) changes nothing
    in the collection: the deleted chat does not come back and no other
    chat receives the message. *)
Theorem reply_for_deleted_chat_is_dropped (seen : list ChatSession.t)
  (g : Generation) (r : Completion) (newId : jsstring) (now : Date)
  (st : AppState) :
  let id := ChatSession.id (sessionForCall g) in
  sessions (performAICall_resume g r newId now
              (handleConfirmClick (handleDeleteChat seen id st)))
  = List.filter (fun s => negb (str_eqb (ChatSession.id s) id)) (sessions st).
Proof.
  cbv zeta.
  set (st2 := handleConfirmClick _).
  assert (sessions st2
          = List.filter
              (fun s => negb (str_eqb (ChatSession.id s)
                                (ChatSession.id (sessionForCall g))))
              (sessions st)) as Hst2 by apply confirm_delete_sessions.
  assert (forall s, s ∈ sessions st2 ->
                    ChatSession.id s <> ChatSession.id (sessionForCall g))
    as Habsent.
  { intros s. rewrite Hst2, list_elem_of_In, filter_In, negb_true_iff,
      str_eqb_neq. by intros [_ ?]. }
  rewrite <- Hst2.
  destruct (resume_sessions g r newId now st2)
    as [(text & _ & _ & ->)|(m & _ & _ & ->)]; [done|].
  by apply addMessage_absent.
Qed.

(** ** Renaming a session *)

Lemma renamedTitle_spec (newTitle : jsstring) :
  renamedTitle newTitle <> []
  /\ trim (renamedTitle newTitle) = renamedTitle newTitle.
Proof.
  unfold renamedTitle.
  destruct (truthy (trim newTitle)) eqn:Ht.
  - split; [by apply truthy_nonempty|apply trim_idempotent].
  - split; [done|by vm_compute].
Qed.

(** X10.  [handleRenameChat] gives the sessions with the id a title that is
    never empty and has no white space at either end (the trimmed text,
    or ["Untitled Chat"] when the text is blank); it changes no id, no
    message and no settings, and leaves the other sessions as they are. *)
Theorem rename_stores_trimmed_title (id newTitle : jsstring) (now : Date)
  (st : AppState) (i : nat) (s : ChatSession.t) :
  sessions st !! i = Some s ->
  exists s',
    sessions (handleRenameChat id newTitle now st) !! i = Some s'
    /\ ChatSession.id s' = ChatSession.id s
    /\ ChatSession.messages s' = ChatSession.messages s
    /\ ChatSession.settings s' = ChatSession.settings s
    /\ (ChatSession.id s <> id -> s' = s)
    /\ (ChatSession.id s = id ->
        ChatSession.title s' <> []
        /\ trim (ChatSession.title s') = ChatSession.title s'
        /\ (trim newTitle <> [] -> ChatSession.title s' = trim newTitle)).
Proof.
  intros Hi.
  assert (sessions (handleRenameChat id newTitle now st)
          = map (fun s => if str_eqb (ChatSession.id s) id
                          then withTitle s (renamedTitle newTitle) now else s)
                (sessions st)) as ->.
  { unfold handleRenameChat. by case_bool_decide. }
  change (map ?f (sessions st)) with (f <$> sessions st).
  rewrite list_lookup_fmap, Hi. simpl.
  destruct (str_eqb (ChatSession.id s) id) eqn:Hid.
  - apply str_eqb_eq in Hid. eexists. split; [done|]. simpl.
    repeat split; try done; try apply renamedTitle_spec.
    intros Hne. unfold renamedTitle.
    by rewrite (proj2 (truthy_nonempty _) Hne).
  - apply str_eqb_neq in Hid. exists s. by repeat split.
Qed.

Lemma rename_stores_trimmed_title_witness :
  exists s',
    sessions (handleRenameChat (js "a") (js "  Plans ") 40 Sample.idle) !! 0%nat
    = Some s'
    /\ ChatSession.title s' = js "Plans".
Proof.
  destruct (rename_stores_trimmed_title (js "a") (js "  Plans ") 40
              Sample.idle 0%nat Sample.chatA eq_refl)
    as (s' & Hs' & _ & _ & _ & _ & Htitle).
  exists s'. split; [exact Hs'|].
  apply Htitle; [reflexivity|vm_compute; discriminate].
Defined.

(** X11.  Through the title editor of the sidebar a rename is a no-op when
    the typed text is blank or, once trimmed, the title the session has:
    [onSave] is not called, so neither the title nor [lastModified]
    changes and nothing is notified.  Otherwise the session of the item,
    ids being distinct, is replaced by one whose title is the trimmed text
    and whose [lastModified] is the time of the rename, with the same id,
    messages, creation time and settings; the other sessions are as before
    and one notification is emitted. *)
Theorem sidebar_rename (s : ChatSession.t) (typed : jsstring) (now : Date)
  (st : AppState) (i : nat) :
  NoDup (map ChatSession.id (sessions st)) ->
  sessions st !! i = Some s ->
  (trim typed = [] \/ trim typed = ChatSession.title s ->
   renameFromSidebar s typed now st = st)
  /\ (trim typed <> [] -> trim typed <> ChatSession.title s ->
      exists s',
        sessions (renameFromSidebar s typed now st) = <[i := s']> (sessions st)
        /\ ChatSession.title s' = trim typed
        /\ ChatSession.lastModified s' = now
        /\ ChatSession.id s' = ChatSession.id s
        /\ ChatSession.messages s' = ChatSession.messages s
        /\ ChatSession.createdAt s' = ChatSession.createdAt s
        /\ ChatSession.settings s' = ChatSession.settings s
        /\ toasts (renameFromSidebar s typed now st)
           = toasts st ++ [toast_success (js "Chat renamed")]).
Proof.
  intros Hnodup Hi. unfold renameFromSidebar, EditableTitle.handleSave. simpl.
  split.
  - intros [Hblank|Hsame].
    + by rewrite Hblank.
    + rewrite Hsame, str_eqb_refl, andb_false_r. by destruct (truthy _).
  - intros Hne Hdiff.
    rewrite (proj2 (truthy_nonempty _) Hne), (proj2 (str_eqb_neq _ _) Hdiff).
    simpl. unfold handleRenameChat.
    rewrite (find_session_at _ i s Hnodup Hi). simpl.
    rewrite trim_idempotent.
    rewrite bool_decide_eq_false_2 by congruence. simpl.
    exists (withTitle s (trim typed) now).
    split; [|done].
    unfold renamedTitle. rewrite trim_idempotent.
    rewrite (proj2 (truthy_nonempty _) Hne).
    apply list_eq. intros k.
    change (map ?f (sessions st)) with (f <$> sessions st).
    rewrite list_lookup_fmap.
    destruct (decide (i = k)) as [<-|Hk].
    + rewrite list_lookup_insert_eq by (by eapply lookup_lt_Some).
      by rewrite Hi; simpl; rewrite str_eqb_refl.
    + rewrite list_lookup_insert_ne by done.
      destruct (sessions st !! k) as [x|] eqn:Hx; simpl; [|done].
      assert (str_eqb (ChatSession.id x) (ChatSession.id s) = false) as ->;
        [|done].
      apply str_eqb_neq. intros Heq. apply Hk.
      apply (NoDup_lookup (ChatSession.id <$> sessions st) i k
               (ChatSession.id s) Hnodup); rewrite list_lookup_fmap.
      * by rewrite Hi.
      * by rewrite Hx; simpl; rewrite Heq.
Qed.

Lemma sidebar_rename_witness :
  renameFromSidebar Sample.chatA (js " First ") 40 Sample.idle = Sample.idle
  /\ exists s',
       sessions (renameFromSidebar Sample.chatA (js " Plans ") 40 Sample.idle)
       = [s'; Sample.chatB]
       /\ ChatSession.title s' = js "Plans"
       /\ ChatSession.messages s' = ChatSession.messages Sample.chatA.
Proof.
  assert (NoDup (map ChatSession.id (sessions Sample.idle))) as Hnodup
    by (apply (bool_decide_unpack _); vm_compute; exact I).
  assert (trim (js " Plans ") <> []) as Hne by (vm_compute; discriminate).
  assert (trim (js " Plans ") <> ChatSession.title Sample.chatA) as Hdiff
    by (vm_compute; discriminate).
  split.
  - apply (proj1 (sidebar_rename Sample.chatA (js " First ") 40 Sample.idle
                    0%nat Hnodup eq_refl)).
    right. reflexivity.
  - destruct (proj2 (sidebar_rename Sample.chatA (js " Plans ") 40 Sample.idle
                       0%nat Hnodup eq_refl) Hne Hdiff)
      as (s' & Hsessions & Htitle & _ & _ & Hmessages & _).
    exists s'. split; [exact Hsessions|]. split; [exact Htitle|].
    exact Hmessages.
Defined.

(** ** Deleting a message *)

Lemma filter_absent_id (mid : jsstring) (ms : list ChatMessage.t) :
  mid ∉ map ChatMessage.id ms ->
  List.filter (fun x => negb (str_eqb (ChatMessage.id x) mid)) ms = ms.
Proof.
  induction ms as [|h ms IH]; intros Hnot; simpl; [done|].
  assert (str_eqb (ChatMessage.id h) mid = false) as ->.
  { apply str_eqb_neq. intros Heq. apply Hnot. rewrite <- Heq. by left. }
  simpl. rewrite IH; [done|]. intros Hin. apply Hnot. by right.
Qed.

Lemma filter_out_at (ms : list ChatMessage.t) (j : nat) (m : ChatMessage.t) :
  NoDup (map ChatMessage.id ms) -> ms !! j = Some m ->
  List.filter (fun x => negb (str_eqb (ChatMessage.id x) (ChatMessage.id m))) ms
  = take j ms ++ drop (S j) ms.
Proof.
  revert j. induction ms as [|h ms IH]; intros j Hnodup Hj; [done|].
  simpl in Hnodup.
  pose proof (NoDup_cons_1_1 _ _ Hnodup) as Hh.
  apply NoDup_cons_1_2 in Hnodup.
  destruct j as [|j]; simpl in *.
  - injection Hj as ->. rewrite str_eqb_refl. simpl.
    by apply filter_absent_id.
  - assert (str_eqb (ChatMessage.id h) (ChatMessage.id m) = false) as ->.
    { apply str_eqb_neq. intros Heq. apply Hh. rewrite Heq.
      apply (list_elem_of_fmap_2 ChatMessage.id).
      by eapply list_elem_of_lookup_2. }
    simpl. by rewrite (IH j).
Qed.

(** X12.  [handleDeleteMessage] removes from the selected session the
    message with the given id and nothing else: ids being distinct, the
    session is replaced by one whose messages are those before and those
    after the message, in their order, so that no reply that followed it is
    dropped; its [lastModified] is the time of the deletion and its other
    fields are kept.  The other sessions are as before. *)
Theorem delete_message_removes_one (messageId a : jsstring) (now : Date)
  (st : AppState) (i j : nat) (s : ChatSession.t) (m : ChatMessage.t) :
  activeSessionId st = Some a -> truthy a = true ->
  NoDup (map ChatSession.id (sessions st)) ->
  sessions st !! i = Some s -> ChatSession.id s = a ->
  NoDup (map ChatMessage.id (ChatSession.messages s)) ->
  ChatSession.messages s !! j = Some m -> ChatMessage.id m = messageId ->
  exists s',
    sessions (handleDeleteMessage messageId now st) = <[i := s']> (sessions st)
    /\ ChatSession.messages s'
       = take j (ChatSession.messages s) ++ drop (S j) (ChatSession.messages s)
    /\ S (length (ChatSession.messages s')) = length (ChatSession.messages s)
    /\ ChatSession.lastModified s' = now
    /\ ChatSession.id s' = ChatSession.id s
    /\ ChatSession.title s' = ChatSession.title s
    /\ ChatSession.createdAt s' = ChatSession.createdAt s
    /\ ChatSession.settings s' = ChatSession.settings s.
Proof.
  intros Hactive Ha Hnodup Hi Hid Hmsgs Hj Hm.
  exists (withMessages s
            (take j (ChatSession.messages s)
             ++ drop (S j) (ChatSession.messages s)) now).
  split; [|split; [done|split; [|done]]].
  - unfold handleDeleteMessage, truthyId. rewrite Hactive, Ha. simpl.
    apply list_eq. intros k.
    change (map ?f (sessions st)) with (f <$> sessions st).
    rewrite list_lookup_fmap.
    destruct (decide (i = k)) as [<-|Hk].
    + rewrite list_lookup_insert_eq by (by eapply lookup_lt_Some).
      rewrite Hi; simpl. rewrite <- Hid, str_eqb_refl, <- Hm.
      by rewrite (filter_out_at _ j m Hmsgs Hj).
    + rewrite list_lookup_insert_ne by done.
      destruct (sessions st !! k) as [x|] eqn:Hx; simpl; [|done].
      assert (str_eqb (ChatSession.id x) a = false) as ->; [|done].
      apply str_eqb_neq. intros Heq. apply Hk.
      apply (NoDup_lookup (ChatSession.id <$> sessions st) i k a Hnodup);
        rewrite list_lookup_fmap.
      * by rewrite Hi; simpl; rewrite Hid.
      * by rewrite Hx; simpl; rewrite Heq.
  - simpl. pose proof (lookup_lt_Some _ _ _ Hj) as Hlt.
    rewrite length_app, length_take, length_drop. lia.
Qed.

Lemma delete_message_removes_one_witness :
  exists s',
    sessions (handleDeleteMessage (js "m1") 40 Sample.idle)
    = [s'; Sample.chatB]
    /\ ChatSession.messages s' = [Sample.reply; Sample.again; Sample.reply2].
Proof.
  assert (NoDup (map ChatSession.id (sessions Sample.idle))) as Hs
    by (apply (bool_decide_unpack _); vm_compute; exact I).
  assert (NoDup (map ChatMessage.id (ChatSession.messages Sample.chatA))) as Hm
    by (apply (bool_decide_unpack _); vm_compute; exact I).
  destruct (delete_message_removes_one (js "m1") (js "a") 40 Sample.idle
              0%nat 0%nat Sample.chatA Sample.hello
              eq_refl eq_refl Hs eq_refl eq_refl Hm eq_refl eq_refl)
    as (s' & Hsessions & Hmessages & _).
  exists s'. split; [exact Hsessions|exact Hmessages].
Defined.

(** ** Override and reset of the settings of a chat *)

Lemma find_rewritten (f : ChatSession.t -> ChatSession.t) (chatId : jsstring)
  (l : list ChatSession.t) :
  (forall s, ChatSession.id (f s) = ChatSession.id s) ->
  find (fun s => str_eqb (ChatSession.id s) chatId)
       (map (fun s => if str_eqb (ChatSession.id s) chatId then f s else s) l)
  = f <$> find (fun s => str_eqb (ChatSession.id s) chatId) l.
Proof.
  intros Hf. induction l as [|s l IH]; simpl; [done|].
  destruct (str_eqb (ChatSession.id s) chatId) eqn:Hs; simpl.
  - by rewrite Hf, Hs.
  - by rewrite Hs.
Qed.

(** X13.  For the selected chat, [handleSaveChatSettings] makes the given
    settings the effective ones and the chat stops reporting the use of
    the defaults; [handleResetChatSettings] afterwards brings back the
    global defaults, and the collection is then the one a reset alone would
    have given: the override leaves no trace. *)
Theorem override_then_reset (chatId : jsstring) (newSettings : ChatSettings.t)
  (now now2 : Date) (st : AppState) (s : ChatSession.t) :
  activeSessionId st = Some chatId ->
  s ∈ sessions st -> ChatSession.id s = chatId ->
  let saved := handleSaveChatSettings chatId newSettings now st in
  let reset := handleResetChatSettings chatId now2 saved in
  effectiveChatSettings saved = newSettings
  /\ isUsingDefaultSettings saved = false
  /\ effectiveChatSettings reset
     = AppSettings.defaultChatSettings (appSettings st)
  /\ isUsingDefaultSettings reset = true
  /\ sessions reset = sessions (handleResetChatSettings chatId now2 st).
Proof.
  intros Hactive Hin Hid. cbv zeta.
  assert (exists s0, find (fun x => str_eqb (ChatSession.id x) chatId)
                          (sessions st) = Some s0) as [s0 Hfind].
  { destruct (find _ (sessions st)) eqn:Hnone; [eauto|].
    apply list_elem_of_In in Hin.
    eapply find_none in Hnone; [|exact Hin]. simpl in Hnone.
    by rewrite Hid, str_eqb_refl in Hnone. }
  unfold effectiveChatSettings, isUsingDefaultSettings, activeSession,
    findSession, handleResetChatSettings, handleSaveChatSettings; simpl.
  rewrite Hactive.
  rewrite !(find_rewritten (fun s => withSettings s _ _)) by done.
  rewrite Hfind. simpl. repeat split.
  rewrite map_map. apply map_ext. intros x.
  destruct (str_eqb (ChatSession.id x) chatId) eqn:Hx; simpl; by rewrite Hx.
Qed.

Lemma override_then_reset_witness :
  effectiveChatSettings
    (handleSaveChatSettings (js "a") Sample.opus 40 Sample.idle) = Sample.opus
  /\ isUsingDefaultSettings
       (handleResetChatSettings (js "a") 41
          (handleSaveChatSettings (js "a") Sample.opus 40 Sample.idle)) = true.
Proof.
  pose proof (override_then_reset (js "a") Sample.opus 40 41 Sample.idle
                Sample.chatA eq_refl (list_elem_of_here _ _) eq_refl) as H.
  cbv zeta in H. destruct H as (Heff & _ & _ & Hdef & _).
  split; [exact Heff|exact Hdef].
Defined.

(** ** Credentials *)

Lemma findProvider_app (pid : option jsstring)
  (l l' : list ApiProviderConfig.t) :
  findProvider pid (l ++ l')
  = match findProvider pid l with
    | Some c => Some c
    | None => findProvider pid l'
    end.
Proof.
  destruct pid as [p|]; simpl; [|done].
  induction l as [|h l IH]; simpl; [done|].
  by destruct (str_eqb (ApiProviderConfig.providerId h) p).
Qed.

Lemma provider_id_truthy (modelId pid : jsstring) :
  getProviderIdFromModel modelId = Some pid -> truthy pid = true.
Proof.
  unfold getProviderIdFromModel, findModelById.
  destruct (find _ getAllModels) as [m|] eqn:Hfind; [|done].
  intros [= <-]. apply find_some in Hfind as [Hin _].
  vm_compute in Hin.
  repeat (destruct Hin as [<-|Hin]; [reflexivity|]). done.
Qed.

Lemma saveNew_accepts (newId : jsstring) (fd : ApiProvidersTab.form)
  (providers : list ApiProviderConfig.t) (pid name key : jsstring) :
  ApiProvidersTab.f_providerId fd = Some pid -> truthy pid = true ->
  ApiProvidersTab.f_name fd = Some name -> trim name <> [] ->
  ApiProvidersTab.f_apiKey fd = Some key -> trim key <> [] ->
  exists c,
    fst (ApiProvidersTab.handleSaveNew newId fd providers)
    = Some (providers ++ [c])
    /\ ApiProviderConfig.providerId c = pid
    /\ ApiProviderConfig.apiKey c = trim key
    /\ ApiProviderConfig.name c = trim name
    /\ ApiProviderConfig.id c = newId
    /\ ApiProviderConfig.status c = unknown.
Proof.
  intros Hpid Hp Hname Hn Hkey Hk. unfold ApiProvidersTab.handleSaveNew.
  rewrite Hpid, Hname, Hkey. simpl.
  rewrite (proj2 (truthy_nonempty _) Hn), (proj2 (truthy_nonempty _) Hk), Hp.
  simpl. eexists. split; [done|]. by repeat split.
Qed.

(** X14.  The credential of a model is the first configuration filed under
    its provider: when one resolves, adding a configuration in the settings
    dialog and saving, whatever its provider and key, does not change the
    configuration that resolves. *)
Theorem first_credential_wins (newId : jsstring) (fd : ApiProvidersTab.form)
  (settings : ChatSettings.t) (c : ApiProviderConfig.t) (st : AppState) :
  resolveCredential settings (appSettings st) = Some c ->
  resolveCredential settings (appSettings (addProviderAndSave newId fd st))
  = Some c.
Proof.
  intros Hc. unfold addProviderAndSave. simpl.
  unfold ApiProvidersTab.handleSaveNew.
  destruct (_ || _ || _); simpl; [done|].
  unfold resolveCredential in *. simpl.
  by rewrite findProvider_app, Hc.
Qed.

Lemma first_credential_wins_witness :
  resolveCredential DEFAULT_CHAT_SETTINGS
    (appSettings
       (addProviderAndSave (js "p2")
          {| ApiProvidersTab.f_id := None;
             ApiProvidersTab.f_providerId := Some (js "openai");
             ApiProvidersTab.f_name := Some (js "Second");
             ApiProvidersTab.f_apiKey := Some (js "sk-other");
             ApiProvidersTab.f_baseUrl := Some [];
             ApiProvidersTab.f_status := Some unknown |}
          Sample.ready))
  = Some Sample.openaiKey.
Proof. by apply first_credential_wins. Defined.

(** X15.  When no configuration resolves for the model of a session,
    [performAICall] stops at its guard; after a configuration for the
    provider of the model is added in the settings dialog, with a name and
    a key that are not blank, and the dialog is saved, [performAICall]
    starts the generation with the trimmed key. *)
Theorem added_provider_enables_generation (newId prompt pid name key : jsstring)
  (fd : ApiProvidersTab.form) (session : ChatSession.t) (st : AppState) :
  let settings :=
    effectiveSettings session
      (AppSettings.defaultChatSettings (appSettings st)) in
  resolveCredential settings (appSettings st) = None ->
  getProviderIdFromModel (ChatSettings.model settings) = Some pid ->
  ApiProvidersTab.f_providerId fd = Some pid ->
  ApiProvidersTab.f_name fd = Some name -> trim name <> [] ->
  ApiProvidersTab.f_apiKey fd = Some key -> trim key <> [] ->
  snd (performAICall prompt session st) = None
  /\ exists g,
       snd (performAICall prompt session (addProviderAndSave newId fd st))
       = Some g
       /\ g_apiKey g = trim key /\ settingsToUse g = settings.
Proof.
  intros settings Hnone Hmodel Hpid Hname Hn Hkey Hk.
  split.
  { unfold performAICall. fold settings. by rewrite Hnone. }
  pose proof (provider_id_truthy _ _ Hmodel) as Hp.
  destruct (saveNew_accepts newId fd (AppSettings.apiProviders (appSettings st))
              pid name key Hpid Hp Hname Hn Hkey Hk)
    as (c & Hsave & Hcpid & Hckey & _).
  assert (appSettings (addProviderAndSave newId fd st)
          = handleApiProvidersChange
              (AppSettings.apiProviders (appSettings st) ++ [c])
              (appSettings st)) as Happ.
  { unfold addProviderAndSave. simpl. by rewrite Hsave. }
  assert (resolveCredential settings
            (appSettings (addProviderAndSave newId fd st)) = Some c) as Hres.
  { rewrite Happ. unfold resolveCredential in *. simpl.
    rewrite findProvider_app, Hnone, Hmodel. simpl.
    by rewrite Hcpid, str_eqb_refl. }
  unfold performAICall.
  assert (effectiveSettings session
            (AppSettings.defaultChatSettings
               (appSettings (addProviderAndSave newId fd st))) = settings)
    as -> by (by rewrite Happ).
  rewrite Hres. simpl. rewrite Hckey, (proj2 (truthy_nonempty _) Hk).
  eexists. by repeat split.
Qed.

Lemma added_provider_enables_generation_witness :
  snd (performAICall (js "more") Sample.chatA Sample.idle) = None
  /\ exists g,
       snd (performAICall (js "more") Sample.chatA
              (addProviderAndSave (js "p1")
                 {| ApiProvidersTab.f_id := None;
                    ApiProvidersTab.f_providerId := Some (js "openai");
                    ApiProvidersTab.f_name := Some (js "Mine");
                    ApiProvidersTab.f_apiKey := Some (js " sk-test ");
                    ApiProvidersTab.f_baseUrl := Some [];
                    ApiProvidersTab.f_status := Some unknown |}
                 Sample.idle)) = Some g
       /\ g_apiKey g = trim (js " sk-test ")
       /\ settingsToUse g = DEFAULT_CHAT_SETTINGS.
Proof.
  apply (added_provider_enables_generation (js "p1") (js "more") (js "openai")
           (js "Mine") (js " sk-test ") _ Sample.chatA Sample.idle);
    try reflexivity; vm_compute; discriminate.
Defined.

(** ** The session selected at start-up *)

Lemma head_sortByLastModified (l : list ChatSession.t) :
  l <> [] ->
  exists s,
    head (sortByLastModified l) = Some s /\ s ∈ l
    /\ forall s', s' ∈ l ->
                  ChatSession.lastModified s' <= ChatSession.lastModified s.
Proof.
  induction l as [|x l IH]; [done|]. intros _.
  destruct l as [|y l].
  - exists x. simpl. split; [done|]. split; [by left|].
    intros s' Hs'. apply list_elem_of_singleton in Hs' as ->. lia.
  - destruct IH as (m & Hhead & Hin & Hmax); [done|].
    change (sortByLastModified (x :: y :: l))
      with (insertByLastModified x (sortByLastModified (y :: l))).
    destruct (sortByLastModified (y :: l)) as [|h r]; [done|].
    injection Hhead as ->. simpl.
    destruct (ChatSession.lastModified m <=? ChatSession.lastModified x)
      eqn:Hcmp.
    + apply Z.leb_le in Hcmp. exists x. split; [done|]. split; [by left|].
      intros s' Hs'. apply elem_of_cons in Hs' as [->|Hs']; [lia|].
      specialize (Hmax s' Hs'). lia.
    + apply Z.leb_gt in Hcmp. exists m. split; [done|]. split; [by right|].
      intros s' Hs'. apply elem_of_cons in Hs' as [->|Hs']; [lia|].
      by apply Hmax.
Qed.

(** X16.  When sessions were loaded, the session selected at start-up is one
    of them: the one last selected if it is still there, else one that was
    modified last.  When none was loaded nothing is selected. *)
Theorem initial_selection (lastActiveId : option jsstring)
  (loadedSessions : list ChatSession.t) :
  (loadedSessions <> [] ->
   exists s,
     s ∈ loadedSessions
     /\ initialActiveSessionId lastActiveId loadedSessions
        = Some (ChatSession.id s)
     /\ (lastActiveId = Some (ChatSession.id s)
         \/ ((forall s', s' ∈ loadedSessions ->
                ChatSession.lastModified s' <= ChatSession.lastModified s)
             /\ forall l s', lastActiveId = Some l -> l <> [] ->
                             s' ∈ loadedSessions -> ChatSession.id s' <> l)))
  /\ (loadedSessions = [] ->
      initialActiveSessionId lastActiveId loadedSessions = None).
Proof.
  split.
  - intros Hne.
    destruct (head_sortByLastModified loadedSessions Hne)
      as (m & Hhead & Hin & Hmax).
    unfold initialActiveSessionId, truthyId.
    destruct lastActiveId as [l|]; [destruct (truthy l) eqn:Hl|].
    + destruct (existsb _ loadedSessions) eqn:Hex.
      * apply existsb_exists in Hex as (s & Hs & Hid).
        apply str_eqb_eq in Hid. exists s.
        split; [by apply list_elem_of_In|]. rewrite Hid. by split; [|left].
      * exists m. rewrite Hhead. split; [done|]. split; [done|]. right.
        split; [done|]. intros l' s' [= <-] _ Hs' Hid.
        apply list_elem_of_In in Hs'.
        assert (existsb (fun s => str_eqb (ChatSession.id s) l) loadedSessions
                = true) as Hyes; [|congruence].
        apply existsb_exists. exists s'. split; [done|by apply str_eqb_eq].
    + exists m. rewrite Hhead. split; [done|]. split; [done|]. right.
      split; [done|]. intros l' s' [= <-] Hne'.
      by apply truthy_nonempty in Hne'; congruence.
    + exists m. rewrite Hhead. split; [done|]. split; [done|]. right.
      by split.
  - intros ->. unfold initialActiveSessionId.
    by destruct (truthyId lastActiveId).
Qed.

Lemma initial_selection_witness :
  exists s,
    s ∈ [Sample.chatB; Sample.chatA]
    /\ initialActiveSessionId (Some (js "gone")) [Sample.chatB; Sample.chatA]
       = Some (ChatSession.id s).
Proof.
  destruct (proj1 (initial_selection (Some (js "gone"))
                     [Sample.chatB; Sample.chatA]))
    as (s & Hin & Hsel & _); [discriminate|].
  exists s. by split.
Defined.

(** ** The ids of the sessions *)

Lemma ids_editSession (a messageId t : jsstring) (now : Date) (v : EditVars)
  (s : ChatSession.t) :
  ChatSession.id (snd (editSession a messageId t now v s)) = ChatSession.id s.
Proof.
  unfold editSession. destruct (str_eqb _ _); [|done].
  by destruct (list_find _ _) as [[j m]|].
Qed.

Lemma ids_editSessions (a messageId t : jsstring) (now : Date) (v : EditVars)
  (l : list ChatSession.t) :
  map ChatSession.id (snd (editSessions a messageId t now v l))
  = map ChatSession.id l.
Proof.
  revert v. induction l as [|s l IH]; intros v; simpl; [done|].
  pose proof (ids_editSession a messageId t now v s) as Hs.
  destruct (editSession a messageId t now v s) as [v1 s1]. simpl in Hs.
  specialize (IH v1).
  destruct (editSessions a messageId t now v1 l) as [v2 l2]. simpl in *.
  by rewrite Hs, IH.
Qed.

Lemma ids_policy (eager : bool) (messageId newContent : jsstring) (now : Date)
  (st : AppState) :
  map ChatSession.id
    (sessions (fst (handleSaveEdit_policy eager messageId newContent now st)))
  = map ChatSession.id (sessions st).
Proof.
  unfold handleSaveEdit_policy.
  destruct (truthyId (activeSessionId st)) as [a|]; [|done].
  destruct (negb (truthy (trim newContent))); [done|].
  pose proof (ids_editSessions a messageId (trim newContent) now editVars0
                (sessions st)) as Hids.
  by destruct (editSessions _ _ _ _ _ _).
Qed.

Lemma ids_rewritten (f : ChatSession.t -> ChatSession.t) (c : jsstring)
  (l : list ChatSession.t) :
  (forall s, ChatSession.id (f s) = ChatSession.id s) ->
  map ChatSession.id
    (map (fun s => if str_eqb (ChatSession.id s) c then f s else s) l)
  = map ChatSession.id l.
Proof.
  intros Hf. rewrite map_map. apply map_ext. intros s.
  by destruct (str_eqb _ _).
Qed.

Lemma NoDup_ids_filter (p : ChatSession.t -> bool) (l : list ChatSession.t) :
  NoDup (map ChatSession.id l) ->
  NoDup (map ChatSession.id (List.filter p l)).
Proof.
  induction l as [|s l IH]; simpl; [done|]. intros Hnodup.
  pose proof (NoDup_cons_1_1 _ _ Hnodup) as Hs.
  apply NoDup_cons_1_2 in Hnodup.
  destruct (p s); simpl; [|by apply IH].
  apply NoDup_cons_2; [|by apply IH].
  intros Hin. apply Hs.
  apply list_elem_of_In, in_map_iff in Hin as (x & Hx & Hin).
  apply filter_In in Hin as [Hin _].
  apply list_elem_of_In, in_map_iff. eauto.
Qed.

Lemma NoDup_ids_submit (e : option jsstring) (sid mid : jsstring) (now : Date)
  (st : AppState) :
  NoDup (map ChatSession.id (sessions st)) ->
  sid ∉ map ChatSession.id (sessions st) ->
  NoDup (map ChatSession.id (sessions (fst (handleSubmit e sid mid now st)))).
Proof.
  intros Hnodup Hfresh.
  destruct (handleSubmit_ids e sid mid now st) as [Hsel Hnone].
  destruct (truthyId (activeSessionId st)) as [a|] eqn:Ha.
  - by rewrite (proj1 (Hsel a eq_refl)).
  - destruct (Hnone eq_refl) as [[-> _]|(_ & _ & -> & _)]; [done|].
    by apply NoDup_cons_2.
Qed.

Lemma NoDup_ids_run (ev : Event) (st : AppState) :
  NoDup (map ChatSession.id (sessions st)) ->
  (forall i, mintedSessionId (ActEvent ev) = Some i ->
             i ∉ map ChatSession.id (sessions st)) ->
  NoDup (map ChatSession.id (sessions (run ev st))).
Proof.
  intros Hnodup Hfresh. destruct ev; cbn [run].
  - apply NoDup_ids_submit; [done|]. by apply Hfresh.
  - unfold handleStopGenerating.
    by destruct (isLoading st), (abortControllerRef st).
  - unfold handleNewChat.
    assert (sessions
              match isLoading st, abortControllerRef st with
              | true, Some k => abort k st
              | _, _ => st
              end = sessions st) as Hsame
      by (by destruct (isLoading st), (abortControllerRef st)).
    destruct seen as [[? ? [|] ? ? ?]|]; try done;
      simpl; rewrite Hsame; apply NoDup_cons_2; try done;
      by apply Hfresh.
  - unfold handleSelectChat.
    by destruct (isLoading st), (abortControllerRef st).
  - done.
  - unfold handleConfirmClick.
    destruct (confirmModalProps st) as [p|]; [|done].
    assert (sessions (runDeleteChat (cm_onConfirm p) st)
            = List.filter
                (fun s => negb (str_eqb (ChatSession.id s)
                                  (dc_id (cm_onConfirm p)))) (sessions st))
      as Hfilter.
    { unfold runDeleteChat; simpl.
      by case_bool_decide;
        [destruct (dc_isLoading _), (abortControllerRef st)|]. }
    change (sessions (setConfirmModal false ?c ?x)) with (sessions x).
    rewrite Hfilter. by apply NoDup_ids_filter.
  - done.
  - unfold handleDeleteMessage.
    destruct (truthyId (activeSessionId st)); [|done].
    simpl. by rewrite (ids_rewritten (fun s => withMessages s _ _)).
  - unfold handleSaveEdit.
    pose proof (ids_policy eager messageId newContent now st) as Hids.
    destruct (handleSaveEdit_policy eager messageId newContent now st)
      as [st1 [[p s]|]]; simpl in *.
    + by rewrite (proj1 (performAICall_frame p s st1)), Hids.
    + by rewrite Hids.
  - unfold handleSaveChanges, handleReset, handleSaveChatSettings,
      handleResetChatSettings.
    destruct (truthyId (activeSessionId st)); [|done].
    destruct (negb (json_eqb tempSettings DEFAULT_CHAT_SETTINGS)); simpl.
    + by rewrite (ids_rewritten (fun s => withSettings s _ _)).
    + destruct (negb (isUsingDefaultSettings st)); simpl; [|done].
      by rewrite (ids_rewritten (fun s => withSettings s _ _)).
  - unfold handleReset, handleResetChatSettings.
    destruct (truthyId (activeSessionId st)); [|done].
    simpl. by rewrite (ids_rewritten (fun s => withSettings s _ _)).
  - done.
  - destruct (resume_sessions g r newId now st)
      as [(text & _ & _ & ->)|(m & _ & _ & ->)]; [done|].
    by rewrite ids_addMessage.
Qed.

(** X17.  Every action keeps the ids of the sessions distinct, provided the
    id it hands to a session it may create is not in use: sessions are only
    added at the head with that id, removed, or rewritten under their
    id. *)
Theorem session_ids_stay_distinct (act : Action) (st : AppState) :
  NoDup (map ChatSession.id (sessions st)) ->
  (forall i, mintedSessionId act = Some i ->
             i ∉ map ChatSession.id (sessions st)) ->
  NoDup (map ChatSession.id (sessions (perform act st))).
Proof.
  intros Hnodup Hfresh. destruct act as [ev| | |]; cbn [perform].
  - by apply NoDup_ids_run.
  - unfold handleRegenerate.
    destruct (truthyId (activeSessionId st)) as [a|]; [|done].
    destruct (isLoading st); [done|].
    destruct (findSession (Some a) (sessions st)) as [s|]; [|done].
    destruct (lastUserMessage _) as [m|]; [|done].
    by rewrite (proj1 (performAICall_frame _ _ _)), ids_addMessage.
  - unfold handleRenameChat.
    case_bool_decide; simpl;
      by rewrite (ids_rewritten (fun s => withTitle s _ _)).
  - unfold handleSendPrompt.
    destruct (negb (truthy prompt) || isLoading st); [done|].
    apply NoDup_ids_submit; [done|]. by apply Hfresh.
Qed.

Lemma session_ids_stay_distinct_witness :
  NoDup (map ChatSession.id
           (sessions (perform (ActEvent (EvNewChat None (js "c") 50))
                        Sample.idle))).
Proof.
  apply session_ids_stay_distinct.
  - apply (bool_decide_unpack _); vm_compute; exact I.
  - intros i [= <-]. apply (bool_decide_unpack _); vm_compute; exact I.
Defined.

(** ** A new chat *)



(** ** Choosing a provider for a chat *)

(** X19.  In the settings of a chat, choosing a provider of the table sets
    the model to the first model of that provider, which resolves back to
    the chosen provider, and leaves the other settings as they are. *)
Theorem provider_select_sets_its_first_model (key : jsstring) (p : Provider)
  (tempSettings : ChatSettings.t) :
  (key, p) ∈ MODEL_PROVIDERS ->
  let chosen := handleProviderSelect key tempSettings in
  (mi_id <$> head (p_models p)) = Some (ChatSettings.model chosen)
  /\ getProviderIdFromModel (ChatSettings.model chosen) = Some key
  /\ ChatSettings.temperature chosen = ChatSettings.temperature tempSettings
  /\ ChatSettings.systemPrompt chosen = ChatSettings.systemPrompt tempSettings
  /\ ChatSettings.maxTokens chosen = ChatSettings.maxTokens tempSettings
  /\ ChatSettings.topP chosen = ChatSettings.topP tempSettings.
Proof.
  intros Hp. cbv zeta. unfold MODEL_PROVIDERS in Hp.
  repeat (apply elem_of_cons in Hp as [Hp|Hp];
          [injection Hp as -> ->; by vm_compute|]).
  by apply elem_of_nil in Hp.
Qed.

Lemma provider_select_sets_its_first_model_witness :
  ChatSettings.model (handleProviderSelect (js "anthropic") Sample.gpt4o)
  = js "claude-3-opus-20240229".
Proof.
  pose proof (provider_select_sets_its_first_model (js "anthropic") _
                Sample.gpt4o
                (list_elem_of_further _ _ _ (list_elem_of_here _ _))) as H.
  cbv zeta in H. destruct H as [Hfirst _].
  apply (f_equal (default [])) in Hfirst. symmetry. exact Hfirst.
Defined.

(** ** Adding and editing a provider configuration *)

Lemma blank_spec (o : option jsstring) :
  ApiProvidersTab.blank o = false <-> exists u, o = Some u /\ trim u <> [].
Proof.
  unfold ApiProvidersTab.blank. destruct o as [u|]; split.
  - rewrite negb_false_iff, truthy_nonempty. eauto.
  - intros (u' & [= <-] & Hne). by rewrite negb_false_iff, truthy_nonempty.
  - done.
  - by intros (u & ? & _).
Qed.

(** X20.  [handleSaveNew] either refuses the form (a name or a key that is
    missing or blank, or no provider type) and hands nothing to
    [onChange], or appends one configuration after the existing ones,
    which it keeps: the new one has the given id, a name and a key that are
    not empty and carry no white space at either end, and has not been
    tested. *)
Theorem save_new_provider (newId : jsstring) (fd : ApiProvidersTab.form)
  (providers : list ApiProviderConfig.t) :
  match ApiProvidersTab.handleSaveNew newId fd providers with
  | (None, t) =>
      (ApiProvidersTab.blank (ApiProvidersTab.f_name fd) = true
       \/ ApiProvidersTab.blank (ApiProvidersTab.f_apiKey fd) = true
       \/ truthyOpt (ApiProvidersTab.f_providerId fd) = false)
      /\ t = toast_error (js "Provider Type, Name, and API Key are required.")
  | (Some l, _) =>
      exists c,
        l = providers ++ [c]
        /\ ApiProviderConfig.id c = newId
        /\ Some (ApiProviderConfig.providerId c) = ApiProvidersTab.f_providerId fd
        /\ ApiProviderConfig.name c <> []
        /\ trim (ApiProviderConfig.name c) = ApiProviderConfig.name c
        /\ ApiProviderConfig.apiKey c <> []
        /\ trim (ApiProviderConfig.apiKey c) = ApiProviderConfig.apiKey c
        /\ ApiProviderConfig.status c = unknown
        /\ ApiProviderConfig.lastTested c = None
  end.
Proof.
  unfold ApiProvidersTab.handleSaveNew.
  destruct (ApiProvidersTab.blank (ApiProvidersTab.f_name fd)) eqn:Hname;
    simpl; [by split; [left|]|].
  destruct (ApiProvidersTab.blank (ApiProvidersTab.f_apiKey fd)) eqn:Hkey;
    simpl; [by split; [right; left|]|].
  destruct (truthyOpt (ApiProvidersTab.f_providerId fd)) eqn:Hpid;
    simpl; [|by split; [right; right|]].
  apply blank_spec in Hname as (name & -> & Hn).
  apply blank_spec in Hkey as (key & -> & Hk).
  destruct (ApiProvidersTab.f_providerId fd) as [pid|]; [|done].
  eexists. split; [done|]. simpl.
  repeat split; try done; apply trim_idempotent.
Qed.

(** X21.  [handleSaveEdit] of the providers tab, for a form with a name
    and a key that are not empty, rewrites the configuration being edited
    and no other (ids being distinct): the configuration takes the fields
    of the form as they were typed, its base URL trimmed, and its test
    result is forgotten (status [unknown], no date). *)
Theorem edit_provider_resets_status (e name key : jsstring)
  (fd : ApiProvidersTab.form) (providers : list ApiProviderConfig.t)
  (i : nat) (p : ApiProviderConfig.t) :
  e <> [] ->
  ApiProvidersTab.f_name fd = Some name -> name <> [] ->
  ApiProvidersTab.f_apiKey fd = Some key -> key <> [] ->
  NoDup (map ApiProviderConfig.id providers) ->
  providers !! i = Some p -> ApiProviderConfig.id p = e ->
  exists p',
    fst (ApiProvidersTab.handleSaveEdit (Some e) fd providers)
    = Some (<[i := p']> providers)
    /\ ApiProviderConfig.name p' = name
    /\ ApiProviderConfig.apiKey p' = key
    /\ ApiProviderConfig.status p' = unknown
    /\ ApiProviderConfig.lastTested p' = None
    /\ ApiProviderConfig.baseUrl p'
       = ApiProvidersTab.trimmedOrUndefined (ApiProvidersTab.f_baseUrl fd).
Proof.
  intros He Hname Hn Hkey Hk Hnodup Hi Hid.
  exists (ApiProvidersTab.merge p fd).
  unfold ApiProvidersTab.handleSaveEdit, truthyId.
  rewrite (proj2 (truthy_nonempty _) He), Hname, Hkey. simpl.
  rewrite (proj2 (truthy_nonempty _) Hn), (proj2 (truthy_nonempty _) Hk).
  simpl. split.
  - f_equal. apply list_eq. intros k.
    change (map ?f providers) with (f <$> providers).
    rewrite list_lookup_fmap.
    destruct (decide (i = k)) as [<-|Hne].
    + rewrite list_lookup_insert_eq by (by eapply lookup_lt_Some).
      by rewrite Hi; simpl; rewrite Hid, str_eqb_refl.
    + rewrite list_lookup_insert_ne by done.
      destruct (providers !! k) as [x|] eqn:Hx; simpl; [|done].
      assert (str_eqb (ApiProviderConfig.id x) e = false) as ->; [|done].
      apply str_eqb_neq. intros Heq. apply Hne.
      apply (NoDup_lookup (ApiProviderConfig.id <$> providers) i k e Hnodup);
        rewrite list_lookup_fmap.
      * by rewrite Hi; simpl; rewrite Hid.
      * by rewrite Hx; simpl; rewrite Heq.
  - unfold ApiProvidersTab.merge. simpl. by rewrite Hname, Hkey.
Qed.

Lemma edit_provider_resets_status_witness :
  exists p',
    fst (ApiProvidersTab.handleSaveEdit (Some (js "p1"))
           {| ApiProvidersTab.f_id := Some (js "p1");
              ApiProvidersTab.f_providerId := Some (js "openai");
              ApiProvidersTab.f_name := Some (js "Work key");
              ApiProvidersTab.f_apiKey := Some (js "sk-new");
              ApiProvidersTab.f_baseUrl := None;
              ApiProvidersTab.f_status := Some valid |}
           [Sample.openaiKey])
    = Some [p']
    /\ ApiProviderConfig.apiKey p' = js "sk-new"
    /\ ApiProviderConfig.status p' = unknown.
Proof.
  destruct (edit_provider_resets_status (js "p1") (js "Work key") (js "sk-new")
              {| ApiProvidersTab.f_id := Some (js "p1");
                 ApiProvidersTab.f_providerId := Some (js "openai");
                 ApiProvidersTab.f_name := Some (js "Work key");
                 ApiProvidersTab.f_apiKey := Some (js "sk-new");
                 ApiProvidersTab.f_baseUrl := None;
                 ApiProvidersTab.f_status := Some valid |}
              [Sample.openaiKey] 0%nat Sample.openaiKey)
    as (p' & Hsave & _ & Hkey & Hstatus & _);
    try reflexivity; try (vm_compute; discriminate).
  - apply (bool_decide_unpack _); vm_compute; exact I.
  - exists p'. by repeat split.
Defined.

(** ** More on editing a message *)

(** X22.  Saving a message with the content it already has, up to white
    space at the ends, refreshes its timestamp and the [lastModified] of
    the session and nothing else: content, role and id of the message are
    kept, the messages after it are kept, and [performAICall] is not
    invoked, also when replies follow, whether the updater runs inside
    [setSessions] or is queued. *)
Theorem edit_without_change (eager : bool) (messageId newContent a : jsstring)
  (now : Date) (st : AppState) (i j : nat) (s : ChatSession.t)
  (m : ChatMessage.t) :
  activeSessionId st = Some a -> truthy a = true ->
  NoDup (map ChatSession.id (sessions st)) ->
  sessions st !! i = Some s -> ChatSession.id s = a ->
  NoDup (map ChatMessage.id (ChatSession.messages s)) ->
  ChatSession.messages s !! j = Some m -> ChatMessage.id m = messageId ->
  trim newContent <> [] ->
  ChatMessage.content m = trim newContent ->
  exists s' e,
    sessions (fst (handleSaveEdit eager messageId newContent now st))
    = <[i := s']> (sessions st)
    /\ ChatSession.messages s' = <[j := e]> (ChatSession.messages s)
    /\ ChatMessage.timestamp e = now
    /\ ChatMessage.content e = ChatMessage.content m
    /\ ChatMessage.id e = ChatMessage.id m
    /\ ChatMessage.role e = ChatMessage.role m
    /\ ChatMessage.isError e = ChatMessage.isError m
    /\ ChatSession.lastModified s' = now
    /\ ChatSession.id s' = ChatSession.id s
    /\ ChatSession.title s' = ChatSession.title s
    /\ ChatSession.createdAt s' = ChatSession.createdAt s
    /\ ChatSession.settings s' = ChatSession.settings s
    /\ length (ChatSession.messages s') = length (ChatSession.messages s)
    /\ snd (handleSaveEdit eager messageId newContent now st) = None
    /\ backendCalls (fst (handleSaveEdit eager messageId newContent now st))
       = backendCalls st.
Proof.
  intros Hactive Ha Hnodup Hi Hid Hmsgs Hj Hm Ht Hsame.
  destruct (handleSaveEdit_found eager messageId newContent a now st i j s m
              Hactive Ha Hnodup Hi Hid Hmsgs Hj Hm Ht) as [Hstate Hcall].
  rewrite <- Hsame, str_eqb_refl in Hstate, Hcall.
  simpl in Hstate, Hcall.
  unfold handleSaveEdit.
  destruct (handleSaveEdit_policy eager messageId newContent now st)
    as [st1 call].
  simpl in *. rewrite Hcall, Hstate. simpl.
  eexists _, (withContent m (ChatMessage.content m) now).
  split; [done|]. split; [done|]. do 10 (split; [done|]).
  split; [apply length_insert|done].
Qed.

Lemma edit_without_change_witness :
  snd (handleSaveEdit true (js "m1") (js " hi ") 20 Sample.idle) = None
  /\ exists s' e,
       sessions (fst (handleSaveEdit true (js "m1") (js " hi ") 20
                        Sample.idle)) = [s'; Sample.chatB]
       /\ ChatSession.messages s'
          = [e; Sample.reply; Sample.again; Sample.reply2]
       /\ ChatMessage.timestamp e = 20
       /\ ChatMessage.content e = js "hi".
Proof.
  assert (NoDup (map ChatSession.id (sessions Sample.idle))) as Hs
    by (apply (bool_decide_unpack _); vm_compute; exact I).
  assert (NoDup (map ChatMessage.id (ChatSession.messages Sample.chatA))) as Hm
    by (apply (bool_decide_unpack _); vm_compute; exact I).
  assert (trim (js " hi ") <> []) as Ht by (vm_compute; discriminate).
  destruct (edit_without_change true (js "m1") (js " hi ") (js "a") 20
              Sample.idle 0%nat 0%nat Sample.chatA Sample.hello
              eq_refl eq_refl Hs eq_refl eq_refl Hm eq_refl eq_refl Ht eq_refl)
    as (s' & e & Hsessions & Hmessages & Htime & Hcontent & _ & _ & _ & _ & _
        & _ & _ & _ & _ & Hcall & _).
  split; [exact Hcall|].
  exists s', e. split; [exact Hsessions|]. split; [exact Hmessages|].
  split; [exact Htime|exact Hcontent].
Defined.

Lemma performAICall_signal (prompt : jsstring) (session : ChatSession.t)
  (st st1 : AppState) (g : Generation) :
  performAICall prompt session st = (st1, Some g) ->
  signal g = length (signals st)
  /\ signals st1 = signals st ++ [false].
Proof.
  unfold performAICall.
  by destruct (ApiProviderConfig.apiKey <$> _) as [key|];
    [destruct (truthy key)|]; intros [= <- <-].
Qed.

(** X23.  [handleSaveEdit] does not look at the loading flag: an edit that
    calls for a regeneration starts a generation also while another one is
    in flight.  The ref then holds the controller of the new generation
    only: the stop button aborts the new one and leaves the signal of the
    former as it was. *)
Theorem edit_while_generating (eager : bool) (messageId newContent : jsstring)
  (now : Date) (st st1 : AppState) (g : Generation) (k : nat) :
  abortControllerRef st = Some k ->
  (k < length (signals st))%nat ->
  handleSaveEdit eager messageId newContent now st = (st1, Some g) ->
  signal g <> k
  /\ abortControllerRef st1 = Some (signal g)
  /\ aborted (signal g) (handleStopGenerating st1) = true
  /\ aborted k (handleStopGenerating st1) = aborted k st.
Proof.
  intros Href Hk Hedit. unfold handleSaveEdit in Hedit.
  pose proof (policy_frame eager messageId newContent now st) as (Hsig & _).
  destruct (handleSaveEdit_policy eager messageId newContent now st)
    as [st0 [[p s]|]]; [|done]. simpl in Hsig.
  destruct (performAICall_signal _ _ _ _ _ Hedit) as [Hg Hsignals].
  apply performAICall_started in Hedit
    as (_ & _ & _ & _ & _ & Hload & Href1 & _).
  rewrite Hsig in Hg, Hsignals.
  split; [lia|]. split; [done|].
  unfold handleStopGenerating. rewrite Hload, Href1.
  split.
  - apply aborted_abort. rewrite Hsignals, length_app. simpl. lia.
  - unfold aborted, abort; simpl.
    rewrite list_lookup_insert_ne by lia.
    by rewrite Hsignals, lookup_app_l.
Qed.

Lemma edit_while_generating_witness :
  aborted 0 (handleStopGenerating
               (fst (handleSaveEdit true (js "m1") (js "hey") 20
                       Sample.generating)))
  = false.
Proof.
  refine (eq_trans
            (proj2 (proj2 (proj2
               (edit_while_generating true (js "m1") (js "hey") 20
                  Sample.generating _ _ 0%nat eq_refl _ eq_refl)))) _);
    [vm_compute; lia | reflexivity].
Defined.

Lemma editSessions_not_found (a messageId t : jsstring) (now : Date)
  (v : EditVars) (l : list ChatSession.t) :
  (forall s m, s ∈ l -> ChatSession.id s = a -> m ∈ ChatSession.messages s ->
               ChatMessage.id m <> messageId) ->
  editSessions a messageId t now v l = (v, l).
Proof.
  induction l as [|s l IH]; intros Hnone; simpl; [done|].
  assert (editSession a messageId t now v s = (v, s)) as ->.
  { unfold editSession.
    destruct (str_eqb (ChatSession.id s) a) eqn:Hs; [|done].
    apply str_eqb_eq in Hs.
    destruct (list_find _ _) as [[j m]|] eqn:Hfind; [|done].
    apply list_find_Some in Hfind as (Hj & Hm & _).
    exfalso. apply (Hnone s m); try done; [by left|].
    by eapply list_elem_of_lookup_2. }
  rewrite IH; [done|].
  intros s' m Hs'. apply Hnone. by right.
Qed.

(** X24.  Saving an edit for an id that no message of the selected session
    has changes no session and starts nothing; the handler still leaves
    the edit mode and notifies ["Message updated"]. *)
Theorem edit_of_unknown_message (eager : bool)
  (messageId newContent a : jsstring) (now : Date) (st : AppState) :
  activeSessionId st = Some a -> truthy a = true ->
  trim newContent <> [] ->
  (forall s m, s ∈ sessions st -> ChatSession.id s = a ->
               m ∈ ChatSession.messages s -> ChatMessage.id m <> messageId) ->
  handleSaveEdit eager messageId newContent now st
  = (toast (toast_success (js "Message updated"))
       (setEditingMessageId None st), None).
Proof.
  intros Hactive Ha Ht Hnone.
  unfold handleSaveEdit, handleSaveEdit_policy, truthyId.
  rewrite Hactive, Ha, (proj2 (truthy_nonempty _) Ht). simpl.
  rewrite (editSessions_not_found a messageId (trim newContent) now editVars0
             (sessions st) Hnone).
  destruct eager; simpl; by destruct st.
Qed.

Lemma edit_of_unknown_message_witness :
  sessions (fst (handleSaveEdit true (js "m1") (js "hey") 20
                   (handleSelectChat (js "b") Sample.idle)))
  = sessions Sample.idle.
Proof.
  rewrite (edit_of_unknown_message true (js "m1") (js "hey") (js "b") 20
             (handleSelectChat (js "b") Sample.idle) eq_refl eq_refl).
  - reflexivity.
  - vm_compute. discriminate.
  - intros s m Hs Hid Hm.
    apply list_elem_of_In in Hs. simpl in Hs.
    destruct Hs as [<-|[<-|[]]]; [vm_compute in Hid; discriminate|].
    by apply elem_of_nil in Hm.
Defined.

(** ** The first message of a chat *)

(** X25.  A prompt sent into the selected session when it is empty and
    still titled ["New Chat"] (ids being distinct) leaves the session with
    that one user message, the trimmed prompt, and the title derived from
    it; sent into a session that has messages, it leaves the title as it
    is, whatever it is. *)
Theorem first_message_titles_session (e : option jsstring)
  (sid mid a : jsstring) (now : Date) (st : AppState) (i : nat)
  (s : ChatSession.t) :
  activeSessionId st = Some a -> truthy a = true -> isLoading st = false ->
  NoDup (map ChatSession.id (sessions st)) ->
  sessions st !! i = Some s -> ChatSession.id s = a ->
  trim (default (input st) e) <> [] ->
  let prompt := trim (default (input st) e) in
  exists s',
    sessions (fst (handleSubmit e sid mid now st)) !! i = Some s'
    /\ ChatSession.messages s'
       = ChatSession.messages s ++ [userMessage mid prompt now]
    /\ (ChatSession.messages s = [] -> ChatSession.title s = js "New Chat" ->
        ChatSession.title s' = deriveTitle prompt)
    /\ (ChatSession.messages s <> [] ->
        ChatSession.title s' = ChatSession.title s).
Proof.
  intros Hactive Ha Hload Hnodup Hi Hid Hinput. cbv zeta.
  unfold handleSubmit, truthyId.
  rewrite Hactive, Ha, (proj2 (truthy_nonempty _) Hinput), Hload. simpl.
  rewrite <- Hid. rewrite (find_session_at _ i s Hnodup Hi).
  unfold submitTo. rewrite Hid, Ha. cbn [negb].
  set (prompt := trim (default (input st) e)).
  set (st1 := addMessageToActiveSession (userMessage mid prompt now) a now st).
  assert (sessions st1 !! i
          = Some (withMessages s
                    (ChatSession.messages s ++ [userMessage mid prompt now])
                    now)) as Hst1.
  { subst st1. rewrite addMessage_sessions_truthy by done.
    rewrite (appendTo_lookup _ _ _ _ _ _ Hi). by rewrite Hid, str_eqb_refl. }
  rewrite (proj1 (performAICall_frame _ _ _)).
  change (sessions (setInput [] ?x)) with (sessions x).
  case_bool_decide as Hempty.
  - unfold updateSessionTitleIfNeeded; simpl.
    change (map ?f (sessions st1)) with (f <$> sessions st1).
    rewrite list_lookup_fmap, Hst1; simpl.
    destruct (needsTitle a _) eqn:Hneeds.
    + eexists. split; [done|]. simpl.
      split; [reflexivity|]. split; [done|]. by intros Hne.
    + eexists. split; [done|]. simpl.
      split; [reflexivity|]. split; [|done].
      intros _ Htitle. exfalso.
      assert (needsTitle a
                (withMessages s
                   (ChatSession.messages s ++ [userMessage mid prompt now])
                   now) = true) as Hyes; [|congruence].
      apply needsTitle_spec. simpl. split; [done|by left].
  - eexists. split; [exact Hst1|]. simpl. by repeat split.
Qed.

Lemma first_message_titles_session_witness :
  exists s',
    sessions (fst (handleSubmit (Some (js " what is a monad? ")) (js "n")
                     (js "m9") 30
                     (handleSelectChat (js "b") Sample.ready))) !! 1%nat
    = Some s'
    /\ ChatSession.title s' = deriveTitle (js "what is a monad?").
Proof.
  assert (NoDup (map ChatSession.id
                   (sessions (handleSelectChat (js "b") Sample.ready)))) as Hs
    by (apply (bool_decide_unpack _); vm_compute; exact I).
  assert (trim (js " what is a monad? ") <> []) as Ht
    by (vm_compute; discriminate).
  destruct (first_message_titles_session (Some (js " what is a monad? "))
              (js "n") (js "m9") (js "b") 30
              (handleSelectChat (js "b") Sample.ready) 1%nat Sample.chatB
              eq_refl eq_refl eq_refl Hs eq_refl eq_refl Ht)
    as (s' & Hs' & _ & Htitle & _).
  exists s'. split; [exact Hs'|].
  exact (Htitle eq_refl eq_refl).
Defined.
